(** * Priority scoring of the orchestrator

    A shallow embedding of [src/orchestrator/priority.py]: the scorer
    [PriorityScorer.score_task], the ranker [PriorityScorer.rank_tasks] and
    the batch entry point [score_tasks], followed by the properties the
    specification states about them.  The planner, the pattern analyzer
    and the daily brief of the orchestrator follow, with properties of
    their own.

    Python integers are [Z] (unbounded), Python floats are the kernel's
    binary64 floats, strings are [string], raised exceptions are the
    [Raise] results of an error monad, and the wall clock read by
    [datetime.now()] is passed in explicitly. *)

From Stdlib Require Import ZArith Lia List String Ascii Bool.
From Stdlib Require Import Floats Uint63 Permutation Sorted ListSet.
From Stdlib Require Import DecimalString.
Import ListNotations.

Set Warnings "-inexact-float".
Open Scope bool_scope.
Open Scope string_scope.
Open Scope list_scope.
Open Scope Z_scope.

(** ** Exceptions *)

Inductive exn : Set :=
| ValueError
| TypeError
| KeyError
| OverflowError.

Inductive result (A : Type) : Type :=
| Ok (a : A)
| Raise (e : exn).

Arguments Ok {A} a.
Arguments Raise {A} e.

Definition bind {A B : Type} (r : result A) (k : A -> result B) : result B :=
  match r with
  | Ok a => k a
  | Raise e => Raise e
  end.

Notation "x <- r ;; k" := (bind r (fun x => k))
  (at level 61, r at next level, right associativity).

Definition returns {A : Type} (r : result A) : Prop := exists a, r = Ok a.
Definition raises {A : Type} (r : result A) : Prop := exists e, r = Raise e.

(** ** Floats: the conversions and the rounding Python adds to IEEE 754 *)

Module PyFloat.

(** The double nearest to the rational [n / d] ([0 <= n], [0 < d]), ties
    to even, for quotients in the normal range: a quotient of 55 or 56
    bits, with a sticky bit for the remainder, rounded to 53 bits. *)
Definition ratio_to_float (n d : Z) : float :=
  if n =? 0 then zero else
  let k := 55 - (Z.log2 n - Z.log2 d) in
  let num := if 0 <=? k then n * 2 ^ k else n in
  let den := if 0 <=? k then d else d * 2 ^ (- k) in
  let t := num / den in
  let sticky := negb (num mod den =? 0) in
  let sh := Z.log2 t - 52 in
  let m := Z.shiftr t sh in
  let r := t - Z.shiftl m sh in
  let half := 2 ^ (sh - 1) in
  let up := (half <? r) || ((r =? half) && (sticky || Z.odd m)) in
  let m' := if up then m + 1 else m in
  Z.ldexp (of_uint63 (of_Z m')) (sh - k).

Definition with_sign (negative : bool) (f : float) : float :=
  if negative then (- f)%float else f.

(** Integers from [overflow_bound] on round to [2^1024], which is no
    double: half way between the largest double and [2^1024]. *)
Definition overflow_bound : Z := 2 ^ 1024 - 2 ^ 970.

(** [float(i)], as done for the [int] operand of [int * float]:
    correctly rounded, [OverflowError] when [i] is too large. *)
Definition int_to_float (i : Z) : result float :=
  if overflow_bound <=? Z.abs i then Raise OverflowError
  else Ok (with_sign (i <? 0) (ratio_to_float (Z.abs i) 1)).

(** [i * w] for an [int] [i] and a [float] [w]. *)
Definition int_mul_float (i : Z) (w : float) : result float :=
  f <- int_to_float i ;; Ok (f * w)%float.

(** The integer nearest to [n / d] ([0 <= n], [0 < d]), ties to even. *)
Definition div_half_even (n d : Z) : Z :=
  let q := n / d in
  let r := n mod d in
  if d <? 2 * r then q + 1
  else if (2 * r =? d) && Z.odd q then q + 1
  else q.

(** [round(x, 2)]: the double nearest to the exact value of [x] rounded,
    ties to even, to two decimals; zeros, infinities and NaN round to
    themselves. *)
Definition round2 (x : float) : float :=
  match Prim2SF x with
  | S754_finite s m e =>
      let hundredths :=
        if 0 <=? e then Z.pos m * 2 ^ e * 100
        else div_half_even (Z.pos m * 100) (2 ^ (- e)) in
      with_sign s (ratio_to_float hundredths 100)
  | _ => x
  end.

(** [sum(xs)] over floats, from the integer [0]: additions from left to
    right.  (CPython from 3.12 on also carries the rounding errors of the
    additions along; where every addition is exact, as in the scenarios
    below, the two agree.) *)
Definition sum (xs : list float) : float :=
  fold_left (fun acc x => (acc + x)%float) xs zero.

End PyFloat.

(** ** Strings, sets and dictionaries *)

Module PyStr.

(** [str.lower] on ASCII text: [A]..[Z] move to [a]..[z], every other
    character stays. *)
Definition lower_char (c : ascii) : ascii :=
  let n := N_of_ascii c in
  if (65 <=? n)%N && (n <=? 90)%N then ascii_of_N (n + 32) else c.

Fixpoint lower (s : string) : string :=
  match s with
  | EmptyString => EmptyString
  | String c s' => String (lower_char c) (lower s')
  end.

(** Truth value of a string: false exactly for the empty one. *)
Definition truthy (s : string) : bool :=
  match s with
  | EmptyString => false
  | String _ _ => true
  end.

(** A string is kept as the bytes of its UTF-8 form.  In ASCII text every
    character is one byte below 128: there the bytes are the characters,
    and counting, slicing, stripping and lowering them is what Python
    does to the characters. *)
Definition is_ascii_char (c : ascii) : bool := (N_of_ascii c <? 128)%N.

Fixpoint is_ascii (s : string) : bool :=
  match s with
  | EmptyString => true
  | String c s' => is_ascii_char c && is_ascii s'
  end.

End PyStr.

Module PySet.

Definition of_list (l : list string) : set string :=
  fold_left (fun acc x => set_add string_dec x acc) l (empty_set string).

Definition inter (a b : set string) : set string := set_inter string_dec a b.

Definition truthy (a : set string) : bool :=
  match a with
  | [] => false
  | _ :: _ => true
  end.

End PySet.

Module PyDict.

(** A dictionary with string keys, in insertion order. *)
Definition dict (V : Type) : Type := list (string * V).

Fixpoint get {V : Type} (d : dict V) (k : string) : option V :=
  match d with
  | [] => None
  | (k', v) :: d' => if String.eqb k k' then Some v else get d' k
  end.

(** [d.get(k, default)] *)
Definition get_default {V : Type} (d : dict V) (k : string) (default : V) : V :=
  match get d k with
  | Some v => v
  | None => default
  end.

(** [d[k]] *)
Definition getitem {V : Type} (d : dict V) (k : string) : result V :=
  match get d k with
  | Some v => Ok v
  | None => Raise KeyError
  end.

(** [d[k] = v]: a known key keeps its place, a new one goes last. *)
Fixpoint setitem {V : Type} (d : dict V) (k : string) (v : V) : dict V :=
  match d with
  | [] => [(k, v)]
  | (k', v') :: d' =>
      if String.eqb k k' then (k', v) :: d' else (k', v') :: setitem d' k v
  end.

Definition keys {V : Type} (d : dict V) : list string := map fst d.

End PyDict.

(** ** Dates and times *)

Module PyDatetime.

(** A [datetime]: its wall-clock reading in microseconds since
    0001-01-01T00:00:00, and its UTC offset in seconds when it carries a
    time zone ([None] for a naive value). *)
Record datetime : Set := {
  micros : Z;
  utcoffset : option Z
}.

Definition naive (us : Z) : datetime := {| micros := us; utcoffset := None |}.

Definition day : Z := 86400 * 1000000.

(** The last microsecond a [datetime] can hold is 9999-12-31T23:59:59.999999. *)
Definition max_micros : Z := 3652059 * day.

Definition in_range (dt : datetime) : Prop := 0 <= micros dt < max_micros.

(** [a - b], a [timedelta] in microseconds; mixing a naive and an aware
    operand raises [TypeError]. *)
Definition sub (a b : datetime) : result Z :=
  match utcoffset a, utcoffset b with
  | None, None => Ok (micros a - micros b)
  | Some oa, Some ob =>
      Ok ((micros a - oa * 1000000) - (micros b - ob * 1000000))
  | _, _ => Raise TypeError
  end.

(** [timedelta.days]: whole days, rounded towards minus infinity. *)
Definition days (delta : Z) : Z := delta / day.

End PyDatetime.

(** ** [sorted(xs, key=..., reverse=...)] over float keys

    A stable insertion sort that compares keys with [<] only; with
    [reverse] the list is reversed before and after, which keeps equal
    keys in their original order.  It returns what [sorted] returns when
    no key is NaN. *)

Module PySort.

Section Insertion.
Context {A : Type} (lt : A -> A -> bool).

Fixpoint insert (x : A) (l : list A) : list A :=
  match l with
  | [] => [x]
  | y :: l' => if lt x y then x :: l else y :: insert x l'
  end.

Definition sort (l : list A) : list A :=
  fold_left (fun acc x => insert x acc) l [].

End Insertion.

(** [a] may stand before [b] in an ascending list: [b] is not below [a]. *)
Definition asc {A : Type} (lt : A -> A -> bool) (a b : A) : Prop :=
  lt b a = false.

Definition sorted {A : Type} (xs : list A) (key : A -> float) (reverse : bool)
  : list A :=
  let lt := fun a b => (key a <? key b)%float in
  if reverse then rev (sort lt (rev xs)) else sort lt xs.

End PySort.

(** ** The scorer *)

Import PyDict PyDatetime.

(** [ScoredTask]: a task with its priority score. *)
Record ScoredTask : Type := {
  task_id : string;
  title : string;
  raw_priority : Z;
  score : float;
  factors : dict Z
}.

Fixpoint mapM {A B : Type} (f : A -> result B) (l : list A) : result (list B) :=
  match l with
  | [] => Ok []
  | x :: l' => y <- f x ;; ys <- mapM f l' ;; Ok (y :: ys)
  end.

(** [PriorityScorer.WEIGHTS] *)
Definition WEIGHTS : dict float :=
  [ ("base_priority", 0.4%float);
    ("age", 0.2%float);
    ("complexity", 0.15%float);
    ("dependencies", 0.15%float);
    ("labels", 0.1%float) ].

(** [PriorityScorer.URGENT_LABELS] *)
Definition URGENT_LABELS : set string :=
  ["urgent"; "critical"; "blocker"; "hotfix"].

(** [sum(factors[k] * self.WEIGHTS[k] for k in self.WEIGHTS)] *)
Definition weighted_total (factors : dict Z) : result float :=
  terms <- mapM (fun k =>
                   f <- getitem factors k ;;
                   w <- getitem WEIGHTS k ;;
                   PyFloat.int_mul_float f w)
                (keys WEIGHTS) ;;
  Ok (PyFloat.sum terms).

(** [PriorityScorer.score_task]; [now] is what [datetime.now()] returns
    when the age is computed: a naive reading of the local clock, in
    microseconds, and [lower] is [str.lower]. *)
Definition score_task_with (lower : string -> string)
    (now : Z) (task_id title : string) (priority : Z)
    (created_at : option datetime) (complexity : string)
    (labels : option (list string)) (blocking_count : Z) : result ScoredTask :=
  let factors : dict Z := [] in
  let base_score := Z.max 0 ((5 - priority) * 25) in
  let factors := setitem factors "base_priority" base_score in
  age_score <-
    match created_at with
    | Some created =>
        delta <- sub (naive now) created ;;
        let age_days := days delta in
        Ok (Z.min 100 (age_days * 5))
    | None => Ok 0
    end ;;
  let factors := setitem factors "age" age_score in
  let complexity_scores := [("low", 80); ("medium", 50); ("high", 30)] in
  let complexity_score := get_default complexity_scores complexity 50 in
  let factors := setitem factors "complexity" complexity_score in
  let dependency_score := Z.min 100 (blocking_count * 20) in
  let factors := setitem factors "dependencies" dependency_score in
  let label_score :=
    match labels with
    | Some ((_ :: _) as ls) =>
        let label_set := PySet.of_list (map lower ls) in
        if PySet.truthy (PySet.inter label_set URGENT_LABELS) then 100 else 0
    | _ => 0
    end in
  let factors := setitem factors "labels" label_score in
  total_score <- weighted_total factors ;;
  Ok {| task_id := task_id;
        title := title;
        raw_priority := priority;
        score := PyFloat.round2 total_score;
        factors := factors |}.

(** The scorer on labels of ASCII text, where [str.lower] is
    [PyStr.lower]. *)
Definition score_task (now : Z) (task_id title : string) (priority : Z)
    (created_at : option datetime) (complexity : string)
    (labels : option (list string)) (blocking_count : Z) : result ScoredTask :=
  score_task_with PyStr.lower now task_id title priority created_at complexity
                  labels blocking_count.

(** [PriorityScorer.rank_tasks] *)
Definition rank_tasks (tasks : list ScoredTask) : list ScoredTask :=
  PySort.sorted tasks (fun t => score t) true.

(** ** The batch entry point *)

(** A task dictionary as the caller sends it: the keys of the input
    contract, each present or not. *)
Record TaskDict : Type := {
  t_id : option string;
  t_title : option string;
  t_priority : option Z;
  t_created_at : option string;
  t_complexity : option string;
  t_labels : option (list string);
  t_blocking_count : option Z
}.

(** A dictionary of the returned list. *)
Record ScoredDict : Type := {
  d_task_id : string;
  d_title : string;
  d_raw_priority : Z;
  d_score : float;
  d_factors : dict Z
}.

Definition to_dict (scored_task : ScoredTask) : ScoredDict :=
  {| d_task_id := task_id scored_task;
     d_title := title scored_task;
     d_raw_priority := raw_priority scored_task;
     d_score := score scored_task;
     d_factors := factors scored_task |}.

(** [task.get(key, default)] *)
Definition get_or {V : Type} (field : option V) (default : V) : V :=
  match field with
  | Some v => v
  | None => default
  end.

Section Batch.

(** [datetime.fromisoformat], which raises [ValueError] on a string it
    cannot parse, and the clock: [clock i] is what [datetime.now()]
    returns while the [i]-th dictionary is scored. *)
Variable fromisoformat : string -> result datetime.
Variable clock : nat -> Z.

(** The timestamp handed to the scorer: parsed only when the entry is
    there and true. *)
Definition parse_created_at (task : TaskDict) : result (option datetime) :=
  match t_created_at task with
  | Some s =>
      if PyStr.truthy s then dt <- fromisoformat s ;; Ok (Some dt)
      else Ok None
  | None => Ok None
  end.

(** One turn of the loop of [score_tasks]. *)
Definition score_one (i : nat) (task : TaskDict) : result ScoredDict :=
  created_at <- parse_created_at task ;;
  scored_task <-
    score_task (clock i)
      (get_or (t_id task) "")
      (get_or (t_title task) "")
      (get_or (t_priority task) 4)
      created_at
      (get_or (t_complexity task) "medium")
      (Some (get_or (t_labels task) []))
      (get_or (t_blocking_count task) 0) ;;
  Ok (to_dict scored_task).

(** The loop of [score_tasks], from the [i]-th dictionary on, appending
    to [scored]. *)
Fixpoint score_loop (i : nat) (tasks_data : list TaskDict)
    (scored : list ScoredDict) : result (list ScoredDict) :=
  match tasks_data with
  | [] => Ok scored
  | task :: rest =>
      d <- score_one i task ;;
      score_loop (S i) rest (scored ++ [d])
  end.

Definition score_tasks (tasks_data : list TaskDict) : result (list ScoredDict) :=
  scored <- score_loop 0 tasks_data [] ;;
  Ok (PySort.sorted scored (fun t => d_score t) true).

End Batch.

(** ** A reader of ISO-8601 timestamps

    [datetime.fromisoformat] on the shapes [YYYY-MM-DD],
    [YYYY-MM-DDTHH:MM:SS] and [YYYY-MM-DDTHH:MM:SS+HH:MM] (or [-HH:MM]);
    any other string is refused.  It stands for the library function in
    the examples; the theorems about [score_tasks] hold for every
    reader. *)

Module IsoFormat.

Definition digit (c : ascii) : option Z :=
  let n := Z.of_N (N_of_ascii c) in
  if (48 <=? n) && (n <=? 57) then Some (n - 48) else None.

(** Reads [n] digits. *)
Fixpoint number (n : nat) (acc : Z) (s : string) : option (Z * string) :=
  match n with
  | O => Some (acc, s)
  | S n' =>
      match s with
      | String c s' =>
          match digit c with
          | Some d => number n' (acc * 10 + d) s'
          | None => None
          end
      | EmptyString => None
      end
  end.

Definition expect (c : ascii) (s : string) : option string :=
  match s with
  | String c' s' => if Ascii.eqb c c' then Some s' else None
  | EmptyString => None
  end.

Definition is_leap (y : Z) : bool :=
  (y mod 4 =? 0) && (negb (y mod 100 =? 0) || (y mod 400 =? 0)).

Definition days_in_month (y m : Z) : Z :=
  if m =? 2 then (if is_leap y then 29 else 28)
  else if (m =? 4) || (m =? 6) || (m =? 9) || (m =? 11) then 30
  else 31.

Definition days_before_month (y m : Z) : Z :=
  fold_left (fun acc k => acc + days_in_month y (Z.of_nat k))
            (seq 1 (Z.to_nat (m - 1))) 0.

Definition days_before_year (y : Z) : Z :=
  let y1 := y - 1 in
  y1 * 365 + y1 / 4 - y1 / 100 + y1 / 400.

(** Days since 0001-01-01, which is day [0]. *)
Definition day_number (y m d : Z) : option Z :=
  if (1 <=? y) && (y <=? 9999) && (1 <=? m) && (m <=? 12)
     && (1 <=? d) && (d <=? days_in_month y m)
  then Some (days_before_year y + days_before_month y m + d - 1)
  else None.

Definition seconds (hh mm ss : Z) : option Z :=
  if (hh <? 24) && (mm <? 60) && (ss <? 60)
  then Some (hh * 3600 + mm * 60 + ss)
  else None.

Definition obind {A B : Type} (o : option A) (k : A -> option B) : option B :=
  match o with
  | Some a => k a
  | None => None
  end.

Definition date (s : string) : option (Z * string) :=
  obind (number 4 0 s) (fun '(y, s) =>
  obind (expect "-" s) (fun s =>
  obind (number 2 0 s) (fun '(m, s) =>
  obind (expect "-" s) (fun s =>
  obind (number 2 0 s) (fun '(d, s) =>
  obind (day_number y m d) (fun n => Some (n, s))))))).

Definition time (s : string) : option (Z * string) :=
  obind (number 2 0 s) (fun '(hh, s) =>
  obind (expect ":" s) (fun s =>
  obind (number 2 0 s) (fun '(mm, s) =>
  obind (expect ":" s) (fun s =>
  obind (number 2 0 s) (fun '(ss, s) =>
  obind (seconds hh mm ss) (fun n => Some (n, s))))))).

Definition offset (negative : bool) (s : string) : option Z :=
  obind (number 2 0 s) (fun '(hh, s) =>
  obind (expect ":" s) (fun s =>
  obind (number 2 0 s) (fun '(mm, s) =>
  obind (seconds hh mm 0) (fun n =>
  match s with
  | EmptyString => Some (if negative then - n else n)
  | String _ _ => None
  end)))).

Definition parse (s : string) : option datetime :=
  obind (date s) (fun '(n, s) =>
  match s with
  | EmptyString => Some (naive (n * day))
  | String sep s =>
      if Ascii.eqb sep "T" then
        obind (time s) (fun '(secs, s) =>
        let us := n * day + secs * 1000000 in
        match s with
        | EmptyString => Some (naive us)
        | String sign s =>
            if Ascii.eqb sign "+" then
              obind (offset false s) (fun o =>
              Some {| micros := us; utcoffset := Some o |})
            else if Ascii.eqb sign "-" then
              obind (offset true s) (fun o =>
              Some {| micros := us; utcoffset := Some o |})
            else None
        end)
      else None
  end).

Definition fromisoformat (s : string) : result datetime :=
  match parse s with
  | Some dt => Ok dt
  | None => Raise ValueError
  end.

End IsoFormat.

(** ** Notions used to state the properties *)

(** The specification's [clamp(lo, hi, x)]. *)
Definition clamp (lo hi x : Z) : Z := Z.max lo (Z.min hi x).

(** A label whose lowercase form, as [lower] gives it, is one of
    [URGENT_LABELS], and a label list that holds such a label. *)
Definition is_urgent_with (lower : string -> string) (label : string) : bool :=
  set_mem string_dec (lower label) URGENT_LABELS.

Definition has_urgent_with (lower : string -> string)
    (labels : option (list string)) : bool :=
  match labels with
  | Some ls => existsb (is_urgent_with lower) ls
  | None => false
  end.

(** The same for ASCII labels. *)
Definition is_urgent (label : string) : bool :=
  set_mem string_dec (PyStr.lower label) URGENT_LABELS.

Definition has_urgent (labels : option (list string)) : bool :=
  match labels with
  | Some ls => existsb is_urgent ls
  | None => false
  end.

(** Reading a label without regard to case, stated with no lowering: two
    characters are the same letter when they are equal, or when one is a
    capital [A]..[Z] and the other the small letter 32 places after it. *)
Definition is_capital (c : ascii) : bool :=
  (65 <=? N_of_ascii c)%N && (N_of_ascii c <=? 90)%N.

Definition small_of (capital small : ascii) : bool :=
  is_capital capital && (N_of_ascii small =? N_of_ascii capital + 32)%N.

Definition same_letter (c1 c2 : ascii) : bool :=
  Ascii.eqb c1 c2 || small_of c1 c2 || small_of c2 c1.

Fixpoint same_word (s1 s2 : string) : bool :=
  match s1, s2 with
  | EmptyString, EmptyString => true
  | String c1 s1', String c2 s2' => same_letter c1 c2 && same_word s1' s2'
  | _, _ => false
  end.

(** A label that spells one of the urgent words in any mix of capital and
    small letters. *)
Definition spells_urgent (label : string) : bool :=
  existsb (same_word label) URGENT_LABELS.

(** The 256 values of a byte. *)
Definition all_chars : list ascii := map ascii_of_nat (seq 0 256).

(** The factors in the order the scorer stores them. *)
Definition factor_dict (base_priority age complexity dependencies labels : Z)
  : dict Z :=
  [ ("base_priority", base_priority);
    ("age", age);
    ("complexity", complexity);
    ("dependencies", dependencies);
    ("labels", labels) ].

(** The age, complexity and label factors, as [score_task] computes them. *)
Definition age_score (now : Z) (created_at : option datetime) : result Z :=
  match created_at with
  | Some created =>
      delta <- sub (naive now) created ;; Ok (Z.min 100 (days delta * 5))
  | None => Ok 0
  end.

Definition complexity_score (complexity : string) : Z :=
  get_default [("low", 80); ("medium", 50); ("high", 30)] complexity 50.

Definition label_score (labels : option (list string)) : Z :=
  match labels with
  | Some ((_ :: _) as ls) =>
      let label_set := PySet.of_list (map PyStr.lower ls) in
      if PySet.truthy (PySet.inter label_set URGENT_LABELS) then 100 else 0
  | _ => 0
  end.

Definition label_score_with (lower : string -> string)
    (labels : option (list string)) : Z :=
  match labels with
  | Some ((_ :: _) as ls) =>
      let label_set := PySet.of_list (map lower ls) in
      if PySet.truthy (PySet.inter label_set URGENT_LABELS) then 100 else 0
  | _ => 0
  end.

(** A float of the specification that is not NaN, and an element whose
    key is not NaN. *)
Definition ordered (x : spec_float) : Prop := x <> S754_nan.

Definition keyed {A : Type} (key : A -> float) (a : A) : Prop :=
  is_nan (key a) = false.

(** An integer far inside the range of a double. *)
Definition float_sized (i : Z) : Prop := Z.abs i <= 2 ^ 1000.

(** A timestamp the scorer can subtract from [datetime.now()]: absent, or
    naive, both readings being dates a [datetime] can hold. *)
Definition subtractable (now : Z) (created_at : option datetime) : Prop :=
  match created_at with
  | Some created =>
      utcoffset created = None /\ in_range (naive now) /\ in_range created
  | None => True
  end.

(** The timestamp is not later than [now]. *)
Definition not_later (now : Z) (created_at : option datetime) : Prop :=
  match created_at with
  | Some created => micros created <= now
  | None => True
  end.

(** [scored_from i tasks_data scored]: [scored] lists, in the order of
    [tasks_data], the dictionary the loop builds for each task, the first
    one in turn [i]. *)
Inductive scored_from (fromisoformat : string -> result datetime)
    (clock : nat -> Z) : nat -> list TaskDict -> list ScoredDict -> Prop :=
| scored_nil i : scored_from fromisoformat clock i [] []
| scored_cons i task rest d ds :
    score_one fromisoformat clock i task = Ok d ->
    scored_from fromisoformat clock (S i) rest ds ->
    scored_from fromisoformat clock i (task :: rest) (d :: ds).

(** A dictionary the loop can score in turn [i]: its integers are ones a
    double can hold, and its timestamp is absent, empty, or parses to a
    naive [datetime]. *)
Definition scorable (fromisoformat : string -> result datetime)
    (clock : nat -> Z) (i : nat) (task : TaskDict) : Prop :=
  float_sized (get_or (t_priority task) 4) /\
  float_sized (get_or (t_blocking_count task) 0) /\
  match t_created_at task with
  | Some s =>
      s = "" \/
      exists dt, fromisoformat s = Ok dt /\ subtractable (clock i) (Some dt)
  | None => True
  end.

(** The dictionary without its [created_at] key. *)
Definition created_at_absent (task : TaskDict) : TaskDict :=
  {| t_id := t_id task; t_title := t_title task;
     t_priority := t_priority task; t_created_at := None;
     t_complexity := t_complexity task; t_labels := t_labels task;
     t_blocking_count := t_blocking_count task |}.

(** The tasks of the examples. *)
Definition sample_task (i : string) (priority : Z) (created_at : option string)
  : TaskDict :=
  {| t_id := Some i; t_title := None; t_priority := Some priority;
     t_created_at := created_at; t_complexity := None; t_labels := None;
     t_blocking_count := None |}.

Definition sample_scored (i : string) (s : float) : ScoredTask :=
  {| task_id := i; title := ""; raw_priority := 3; score := s; factors := [] |}.

(** 2024-01-06T00:00:00, read off a local clock. *)
Definition sample_now : Z := 738890 * day.

(** ** Notions used for the further properties of the scorer *)

(** The weighted sum of five factors in exact arithmetic, in hundredths:
    the weights are 0.40, 0.20, 0.15, 0.15 and 0.10. *)
Definition weighted_hundredths (b a c d l : Z) : Z :=
  40 * b + 20 * a + 15 * c + 15 * d + 10 * l.

(** The integers [0 .. n-1]. *)
Definition zrange (n : nat) : list Z := map Z.of_nat (seq 0 n).

(** The factor values of a task with a priority of at least 1, a blocking
    count of at least 0 and a timestamp not later than [now]. *)
Definition base_values : list Z := map (Z.mul 25) (zrange 5).
Definition age_values : list Z := map (Z.mul 5) (zrange 21).
Definition complexity_values : list Z := [80; 50; 30].
Definition dependency_values : list Z := map (Z.mul 20) (zrange 6).
Definition label_values : list Z := [0; 100].

(** The rounded float sum of the factors [b a c d l] is the double nearest
    to the exact sum, and lies between 4.5 and 97. *)
Definition score_is_exact (b a c d l : Z) : bool :=
  match weighted_total (factor_dict b a c d l) with
  | Ok total =>
      let s := PyFloat.round2 total in
      Leibniz.eqb s (of_uint63 (of_Z (weighted_hundredths b a c d l)) / 100)%float
      && (4.5 <=? s)%float && (s <=? 97)%float
  | Raise _ => false
  end.

(** A dictionary with every missing key filled in with the default that
    [score_tasks] uses for it; a missing or empty [created_at] stays
    missing. *)
Definition with_defaults (task : TaskDict) : TaskDict :=
  {| t_id := Some (get_or (t_id task) "");
     t_title := Some (get_or (t_title task) "");
     t_priority := Some (get_or (t_priority task) 4);
     t_created_at :=
       match t_created_at task with
       | Some s => if PyStr.truthy s then Some s else None
       | None => None
       end;
     t_complexity := Some (get_or (t_complexity task) "medium");
     t_labels := Some (get_or (t_labels task) []);
     t_blocking_count := Some (get_or (t_blocking_count task) 0) |}.

(** * The task planner ([src/orchestrator/planner.py])

    ** Text operations

    A string is the sequence of the bytes of its UTF-8 form.  On ASCII
    text ([PyStr.is_ascii]) a byte is a character and the operations
    below are Python's.  Outside ASCII, [len], [take] and [drop] count
    bytes where Python counts characters, and [strip] knows the ASCII
    white space only; the properties that depend on them are stated for
    ASCII text. *)

Module PyText.

(** The newline character. *)
Definition nl : ascii := "010"%char.

(** The characters [str.strip] removes from ASCII text: tab, line feed,
    vertical tab, form feed, carriage return, the four separators
    [0x1c]..[0x1f] and the space. *)
Definition is_space (c : ascii) : bool :=
  let n := N_of_ascii c in
  ((9 <=? n)%N && (n <=? 13)%N) || ((28 <=? n)%N && (n <=? 32)%N).

Fixpoint lstrip (s : string) : string :=
  match s with
  | EmptyString => EmptyString
  | String c s' => if is_space c then lstrip s' else s
  end.

Fixpoint rstrip (s : string) : string :=
  match s with
  | EmptyString => EmptyString
  | String c s' =>
      match rstrip s' with
      | EmptyString => if is_space c then EmptyString else String c EmptyString
      | r => String c r
      end
  end.

(** [s.strip()] *)
Definition strip (s : string) : string := rstrip (lstrip s).

(** [s.split(sep)] for a separator of one character. *)
Fixpoint split (sep : ascii) (s : string) : list string :=
  match s with
  | EmptyString => [EmptyString]
  | String c s' =>
      if Ascii.eqb c sep then EmptyString :: split sep s'
      else
        match split sep s' with
        | piece :: pieces => String c piece :: pieces
        | [] => [String c EmptyString]
        end
  end.

(** [s.startswith(prefix)] *)
Fixpoint startswith (s prefix : string) {struct prefix} : bool :=
  match prefix with
  | EmptyString => true
  | String a prefix' =>
      match s with
      | EmptyString => false
      | String b s' => Ascii.eqb a b && startswith s' prefix'
      end
  end.

(** [s[n:]] and [s[:n]] *)
Fixpoint drop (n : nat) (s : string) : string :=
  match n, s with
  | S n', String _ s' => drop n' s'
  | _, _ => s
  end.

Fixpoint take (n : nat) (s : string) : string :=
  match n, s with
  | S n', String c s' => String c (take n' s')
  | _, _ => EmptyString
  end.

(** [len(s)] *)
Definition len (s : string) : Z := Z.of_nat (String.length s).

(** [needle in s] *)
Fixpoint contains (needle s : string) : bool :=
  startswith s needle
  || match s with
     | EmptyString => false
     | String _ s' => contains needle s'
     end.

(** [sep.join(pieces)] *)
Definition join (sep : string) (pieces : list string) : string :=
  String.concat sep pieces.

(** [str(i)] for an integer. *)
Definition str_of_int (i : Z) : string := NilZero.string_of_int (Z.to_int i).

(** Truth value of a string. *)
Definition truthy (s : string) : bool := negb (String.eqb s "").

(** [a or b] on strings. *)
Definition or_else (a b : string) : string := if truthy a then a else b.

End PyText.

(** ** Tickets and tasks *)

Module Ticket.
Record Ticket : Type := {
  id : string;
  identifier : string;
  title : string;
  description : string;
  priority : Z;
  labels : list string;
  project : option string;
  assignee : option string;
  created_at : option datetime
}.
End Ticket.

Module Task.
Record Task : Type := {
  id : string;
  title : string;
  description : string;
  requirements : list string;
  acceptance_criteria : list string;
  technical_approach : string;
  files_to_modify : list string;
  estimated_complexity : string;
  priority : Z
}.
End Task.

Module TaskPlanner.

Import PyText.

(** The loop of [_extract_requirements] over the remaining lines. *)
Fixpoint extract_loop (lines : list string) (requirements : list string)
  : list string :=
  match lines with
  | [] => requirements
  | line :: rest =>
      let line := strip line in
      if startswith line "- " || startswith line "* " then
        extract_loop rest (requirements ++ [drop 2 line])
      else if startswith line "[ ]" || startswith line "[x]" then
        extract_loop rest (requirements ++ [strip (drop 4 line)])
      else extract_loop rest requirements
  end.

Definition _extract_requirements (description : string) : list string :=
  let requirements := extract_loop (split nl description) [] in
  match requirements with
  | [] => [take 200 description]
  | _ :: _ => requirements
  end.

Definition _generate_acceptance_criteria (ticket : Ticket.Ticket) : list string :=
  let criteria := [] in
  let criteria :=
    criteria ++ [("Feature '" ++ Ticket.title ticket ++ "' is implemented")%string] in
  let criteria := criteria ++ ["All tests pass"] in
  let criteria := criteria ++ ["Code follows project standards"] in
  criteria.

Definition _estimate_complexity (ticket : Ticket.Ticket) : string :=
  let desc_length := len (Ticket.description ticket) in
  if Ticket.priority ticket =? 1 then "high"
  else if 500 <? desc_length then "high"
  else if 200 <? desc_length then "medium"
  else "low".

Definition plan_from_ticket (ticket : Ticket.Ticket) : Task.Task :=
  let requirements := _extract_requirements (Ticket.description ticket) in
  let acceptance_criteria := _generate_acceptance_criteria ticket in
  let complexity := _estimate_complexity ticket in
  {| Task.id := ("TASK-" ++ Ticket.identifier ticket)%string;
     Task.title := Ticket.title ticket;
     Task.description := Ticket.description ticket;
     Task.requirements := requirements;
     Task.acceptance_criteria := acceptance_criteria;
     Task.technical_approach := "";
     Task.files_to_modify := [];
     Task.estimated_complexity := complexity;
     Task.priority := Ticket.priority ticket |}.

Definition line (s : string) : string := (s ++ String nl "")%string.

(** [to_markdown]; [created] is the text of [datetime.now().isoformat()]. *)
Definition to_markdown (created : string) (task : Task.Task) : string :=
  let requirements :=
    join (String nl "")
         (map (fun r => ("- " ++ r)%string) (Task.requirements task)) in
  let criteria :=
    join (String nl "")
         (map (fun c => ("- [ ] " ++ c)%string)
              (Task.acceptance_criteria task)) in
  (line ("# " ++ Task.id task ++ ": " ++ Task.title task)
  ++ line ""
  ++ line "## Overview"
  ++ line (Task.description task)
  ++ line ""
  ++ line "## Requirements"
  ++ line requirements
  ++ line ""
  ++ line "## Acceptance Criteria"
  ++ line criteria
  ++ line ""
  ++ line "## Technical Approach"
  ++ line (or_else (Task.technical_approach task)
                   "To be determined during implementation.")
  ++ line ""
  ++ line "## Files to Modify"
  ++ line (or_else (join ", " (Task.files_to_modify task))
                   "To be determined during implementation.")
  ++ line ""
  ++ line "## Metadata"
  ++ line ("- **Priority**: " ++ str_of_int (Task.priority task))
  ++ line ("- **Complexity**: " ++ Task.estimated_complexity task)
  ++ line ("- **Created**: " ++ created))%string.

End TaskPlanner.

(** The ticket dictionary of [plan_ticket]: the keys it reads, each
    present or not. *)
Record TicketDict : Type := {
  k_id : option string;
  k_identifier : option string;
  k_title : option string;
  k_description : option string;
  k_priority : option Z;
  k_labels : option (list string);
  k_project : option string;
  k_assignee : option string
}.

(** [plan_ticket]; [created] is the text of [datetime.now().isoformat()]
    when the document is written. *)
Definition plan_ticket (created : string) (ticket_data : TicketDict) : string :=
  let ticket :=
    {| Ticket.id := get_or (k_id ticket_data) "";
       Ticket.identifier := get_or (k_identifier ticket_data) "";
       Ticket.title := get_or (k_title ticket_data) "";
       Ticket.description := get_or (k_description ticket_data) "";
       Ticket.priority := get_or (k_priority ticket_data) 4;
       Ticket.labels := get_or (k_labels ticket_data) [];
       Ticket.project := k_project ticket_data;
       Ticket.assignee := k_assignee ticket_data;
       Ticket.created_at := None |} in
  let task := TaskPlanner.plan_from_ticket ticket in
  TaskPlanner.to_markdown created task.

(** ** Notions used to state the properties of the planner *)

(** [c] occurs in [s]. *)
Fixpoint has_char (c : ascii) (s : string) : bool :=
  match s with
  | EmptyString => false
  | String c' s' => Ascii.eqb c' c || has_char c s'
  end.

(** A line that [_extract_requirements] takes as a requirement: stripped,
    it starts with a bullet or with a check box. *)
Definition is_item (line : string) : bool :=
  let line := PyText.strip line in
  PyText.startswith line "- " || PyText.startswith line "* "
  || PyText.startswith line "[ ]" || PyText.startswith line "[x]".

(** A requirement that a bullet line carries as it is: not empty, on one
    line, with no white space at its end. *)
Definition plain_requirement (r : string) : Prop :=
  r <> "" /\ PyText.rstrip r = r /\ has_char PyText.nl r = false.

(** The complexity factor of the scorer for a description of [n]
    characters and a priority. *)
Definition planned_complexity_factor (priority n : Z) : Z :=
  if priority =? 1 then 30
  else if 500 <? n then 30
  else if 200 <? n then 50
  else 80.

Definition sample_ticket : Ticket.Ticket :=
  {| Ticket.id := "123";
     Ticket.identifier := "PROJ-123";
     Ticket.title := "Add user authentication";
     Ticket.description := "- Login with email/password";
     Ticket.priority := 1;
     Ticket.labels := ["pilot"; "feature"];
     Ticket.project := None;
     Ticket.assignee := None;
     Ticket.created_at := None |}.

(** * The pattern analyzer ([src/orchestrator/pattern_analyzer.py]) *)

Module PyList.

(** [xs[start:stop]] for bounds that are not negative. *)
Definition slice {A : Type} (xs : list A) (start stop : Z) : list A :=
  firstn (Z.to_nat (stop - start)) (skipn (Z.to_nat start) xs).

(** [len(xs)] *)
Definition len {A : Type} (xs : list A) : Z := Z.of_nat (List.length xs).

End PyList.

Module Pattern.
(** An extracted pattern. *)
Record Pattern : Type := {
  type : string;
  title : string;
  description : string;
  context : string;
  examples : list string;
  confidence : float
}.
End Pattern.

(** A row of the signature tables. *)
Module PatternDef.
Record PatternDef : Type := {
  signature : string;
  type : string;
  title : string;
  description : string;
  context : string
}.
End PatternDef.

Record AnalysisResult : Type := {
  patterns : list Pattern.Pattern;
  anti_patterns : list Pattern.Pattern
}.

(** The request dictionary of [analyze]: the keys it reads. *)
Record RequestDict : Type := {
  r_output : option string;
  r_error : option string;
  r_diff_content : option string
}.

Module PatternAnalyzer.

Import PyText.

Definition CODE_PATTERNS : list PatternDef.PatternDef :=
  [ {| PatternDef.signature := "context.Context";
       PatternDef.type := "code";
       PatternDef.title := "Use context.Context for cancellation";
       PatternDef.description :=
         "Pass context.Context to functions for proper cancellation and timeout handling";
       PatternDef.context := "Go handlers" |};
    {| PatternDef.signature := "slog.";
       PatternDef.type := "code";
       PatternDef.title := "Use structured logging";
       PatternDef.description :=
         "Use slog or similar structured logging instead of fmt.Printf";
       PatternDef.context := "Go services" |};
    {| PatternDef.signature := "defer ";
       PatternDef.type := "code";
       PatternDef.title := "Use defer for cleanup";
       PatternDef.description :=
         "Use defer for resource cleanup (close files, unlock mutex)";
       PatternDef.context := "Go functions" |};
    {| PatternDef.signature := "interface{}";
       PatternDef.type := "structure";
       PatternDef.title := "Define interfaces";
       PatternDef.description :=
         "Define interfaces for dependency injection and testing";
       PatternDef.context := "Go packages" |};
    {| PatternDef.signature := "_test.go";
       PatternDef.type := "workflow";
       PatternDef.title := "Co-locate tests";
       PatternDef.description :=
         "Keep test files next to implementation files";
       PatternDef.context := "Go testing" |} ].

Definition ERROR_PATTERNS : list PatternDef.PatternDef :=
  [ {| PatternDef.signature := "nil pointer";
       PatternDef.type := "error";
       PatternDef.title := "Check for nil before dereference";
       PatternDef.description :=
         "Always validate pointers are not nil before dereferencing";
       PatternDef.context := "Go code" |};
    {| PatternDef.signature := "sql: no rows";
       PatternDef.type := "error";
       PatternDef.title := "Handle sql.ErrNoRows";
       PatternDef.description :=
         "Check for sql.ErrNoRows when querying database";
       PatternDef.context := "Go database" |};
    {| PatternDef.signature := "context deadline";
       PatternDef.type := "error";
       PatternDef.title := "Handle context timeouts";
       PatternDef.description :=
         "Gracefully handle context deadline exceeded errors";
       PatternDef.context := "Async operations" |};
    {| PatternDef.signature := "import cycle";
       PatternDef.type := "structure";
       PatternDef.title := "Avoid import cycles";
       PatternDef.description :=
         "Restructure packages to prevent circular imports";
       PatternDef.context := "Go packages" |} ].

(** The loop of [_extract_examples]: [line], the first of [remaining], is
    the [i]-th of [lines]. *)
Fixpoint examples_loop (lines : list string) (signature : string) (i : Z)
    (remaining : list string) (examples : list string) : list string :=
  match remaining with
  | [] => examples
  | line :: rest =>
      if contains (PyStr.lower signature) (PyStr.lower line) then
        let start := Z.max 0 (i - 1) in
        let stop := Z.min (PyList.len lines) (i + 2) in
        let snippet := join (String nl "") (PyList.slice lines start stop) in
        let examples :=
          if len snippet <=? 200 then examples ++ [snippet] else examples in
        if 3 <=? PyList.len examples then examples
        else examples_loop lines signature (i + 1) rest examples
      else examples_loop lines signature (i + 1) rest examples
  end.

Definition _extract_examples (text signature : string) : list string :=
  let lines := split nl text in
  examples_loop lines signature 0 lines [].

(** The loop of [_deduplicate_patterns]. *)
Fixpoint dedup_loop (ps : list Pattern.Pattern) (seen : set string)
    (unique : list Pattern.Pattern) : list Pattern.Pattern :=
  match ps with
  | [] => unique
  | p :: rest =>
      if negb (set_mem string_dec (Pattern.title p) seen) then
        dedup_loop rest (set_add string_dec (Pattern.title p) seen)
                   (unique ++ [p])
      else dedup_loop rest seen unique
  end.

Definition _deduplicate_patterns (ps : list Pattern.Pattern)
  : list Pattern.Pattern :=
  dedup_loop ps (empty_set string) [].

(** The loop over [CODE_PATTERNS]. *)
Fixpoint code_loop (defs : list PatternDef.PatternDef) (combined_text : string)
    (patterns : list Pattern.Pattern) : list Pattern.Pattern :=
  match defs with
  | [] => patterns
  | pattern_def :: rest =>
      if contains (PyStr.lower (PatternDef.signature pattern_def))
                  (PyStr.lower combined_text)
      then
        code_loop rest combined_text
          (patterns ++
           [{| Pattern.type := PatternDef.type pattern_def;
               Pattern.title := PatternDef.title pattern_def;
               Pattern.description := PatternDef.description pattern_def;
               Pattern.context := PatternDef.context pattern_def;
               Pattern.examples :=
                 _extract_examples combined_text
                                   (PatternDef.signature pattern_def);
               Pattern.confidence := 0.7%float |}])
      else code_loop rest combined_text patterns
  end.

(** The loop over [ERROR_PATTERNS]. *)
Fixpoint error_loop (defs : list PatternDef.PatternDef) (error : string)
    (anti_patterns : list Pattern.Pattern) : list Pattern.Pattern :=
  match defs with
  | [] => anti_patterns
  | pattern_def :: rest =>
      if contains (PyStr.lower (PatternDef.signature pattern_def))
                  (PyStr.lower error)
      then
        error_loop rest error
          (anti_patterns ++
           [{| Pattern.type := PatternDef.type pattern_def;
               Pattern.title := PatternDef.title pattern_def;
               Pattern.description := PatternDef.description pattern_def;
               Pattern.context := PatternDef.context pattern_def;
               Pattern.examples := [take 200 error];
               Pattern.confidence := 0.8%float |}])
      else error_loop rest error anti_patterns
  end.

Definition analyze (request : RequestDict) : AnalysisResult :=
  let output := get_or (r_output request) "" in
  let error := get_or (r_error request) "" in
  let diff_content := get_or (r_diff_content request) "" in
  let patterns := [] in
  let anti_patterns := [] in
  let combined_text := (output ++ String nl diff_content)%string in
  let patterns := code_loop CODE_PATTERNS combined_text patterns in
  let anti_patterns :=
    if truthy error then error_loop ERROR_PATTERNS error anti_patterns
    else anti_patterns in
  let patterns := _deduplicate_patterns patterns in
  let anti_patterns := _deduplicate_patterns anti_patterns in
  {| patterns := patterns; anti_patterns := anti_patterns |}.

End PatternAnalyzer.

(** ** Notions used to state the properties of the analyzer *)

(** The signature occurs in the text, whatever the case of the letters. *)
Definition occurs (signature text : string) : bool :=
  PyText.contains (PyStr.lower signature) (PyStr.lower text).

Definition sample_pattern (t : string) (c : string) : Pattern.Pattern :=
  {| Pattern.type := "code"; Pattern.title := t; Pattern.description := "";
     Pattern.context := c; Pattern.examples := [];
     Pattern.confidence := 0.7%float |}.

Definition sample_request : RequestDict :=
  {| r_output := Some "func Run(ctx context.Context) error {";
     r_error := Some "panic: NIL pointer dereference";
     r_diff_content := Some "+ defer f.Close()" |}.

(** An example as [_extract_examples] keeps it: at most 200 characters,
    with the signature in it. *)
Definition good_example (signature example : string) : Prop :=
  PyText.len example <= 200 /\ occurs signature example = true.

(** The report of a row of [CODE_PATTERNS] found in [text], and the report
    of a row of [ERROR_PATTERNS] found in [error]. *)
Definition code_pattern_of (text : string) (d : PatternDef.PatternDef)
  : Pattern.Pattern :=
  {| Pattern.type := PatternDef.type d;
     Pattern.title := PatternDef.title d;
     Pattern.description := PatternDef.description d;
     Pattern.context := PatternDef.context d;
     Pattern.examples :=
       PatternAnalyzer._extract_examples text (PatternDef.signature d);
     Pattern.confidence := 0.7%float |}.

Definition anti_pattern_of (error : string) (d : PatternDef.PatternDef)
  : Pattern.Pattern :=
  {| Pattern.type := PatternDef.type d;
     Pattern.title := PatternDef.title d;
     Pattern.description := PatternDef.description d;
     Pattern.context := PatternDef.context d;
     Pattern.examples := [PyText.take 200 error];
     Pattern.confidence := 0.8%float |}.

(** What every reported code pattern and anti-pattern carries. *)
Definition code_report (p : Pattern.Pattern) : Prop :=
  Pattern.confidence p = 0.7%float /\
  (List.length (Pattern.examples p) <= 3)%nat /\
  Forall (fun e => PyText.len e <= 200) (Pattern.examples p).

Definition error_report (error : string) (p : Pattern.Pattern) : Prop :=
  Pattern.confidence p = 0.8%float /\
  Pattern.examples p = [PyText.take 200 error].

(** * The daily brief ([src/orchestrator/briefing.py]) *)

Module PyNum.

(** A number of the statistics: an [int] or a [float]. *)
Inductive number : Type :=
| Int (i : Z)
| Float (f : float).

(** [a / b] for integers [0 <= a] and [0 < b]: the double nearest to the
    quotient. *)
Definition truediv (a b : Z) : float := PyFloat.ratio_to_float a b.

(** [format(x, ".0f")]: the exact value rounded to an integer, ties to
    even. *)
Definition format_0f (x : number) : string :=
  match x with
  | Int i => PyText.str_of_int i
  | Float f =>
      match Prim2SF f with
      | S754_zero s => if s then "-0" else "0"
      | S754_infinity s => if s then "-inf" else "inf"
      | S754_nan => "nan"
      | S754_finite s m e =>
          let n :=
            if 0 <=? e then Z.pos m * 2 ^ e
            else PyFloat.div_half_even (Z.pos m) (2 ^ (- e)) in
          ((if s then "-" else "") ++ PyText.str_of_int n)%string
      end
  end.

End PyNum.

Module PyDate.

(** The year, month and day of a day number (days since 0001-01-01, which
    is day 0), as [datetime] computes them. *)
Definition days_before_month (month : Z) : Z :=
  nth (Z.to_nat month) [-1; 0; 31; 59; 90; 120; 151; 181; 212; 243; 273; 304; 334] 0.

Definition days_in_month (month : Z) : Z :=
  nth (Z.to_nat month) [-1; 31; 28; 31; 30; 31; 30; 31; 31; 30; 31; 30; 31] 0.

Definition ymd (n : Z) : Z * Z * Z :=
  let n400 := n / 146097 in
  let n := n mod 146097 in
  let year := n400 * 400 + 1 in
  let n100 := n / 36524 in
  let n := n mod 36524 in
  let n4 := n / 1461 in
  let n := n mod 1461 in
  let n1 := n / 365 in
  let n := n mod 365 in
  let year := year + n100 * 100 + n4 * 4 + n1 in
  if (n1 =? 4) || (n100 =? 4) then (year - 1, 12, 31)
  else
    let leapyear := (n1 =? 3) && (negb (n4 =? 24) || (n100 =? 3)) in
    let month := Z.shiftr (n + 50) 5 in
    let preceding :=
      days_before_month month
      + (if (2 <? month) && leapyear then 1 else 0) in
    if n <? preceding then
      let month := month - 1 in
      let preceding :=
        preceding
        - (days_in_month month + (if (month =? 2) && leapyear then 1 else 0)) in
      (year, month, n - preceding + 1)
    else (year, month, n - preceding + 1).

Definition month_name (month : Z) : string :=
  nth (Z.to_nat month)
      [""; "January"; "February"; "March"; "April"; "May"; "June"; "July";
       "August"; "September"; "October"; "November"; "December"] "".

(** A number below 100 on two digits. *)
Definition two_digits (n : Z) : string :=
  ((if (n <? 10)%Z then "0" else "") ++ PyText.str_of_int n)%string.

(** [dt.strftime('%B %d, %Y')] with English month names, for a year of
    four digits. *)
Definition strftime_B_d_Y (dt : datetime) : string :=
  let '(year, month, d) := ymd (micros dt / day) in
  (month_name month ++ " " ++ two_digits d ++ ", "
   ++ PyText.str_of_int year)%string.

End PyDate.

Module TaskSummary.
(** Summary of a task for the brief. *)
Record TaskSummary : Type := {
  id : string;
  title : string;
  status : string;
  pr_url : option string;
  completed_at : option datetime;
  error : option string
}.
End TaskSummary.

(** The [stats] dictionary of a brief: its six keys. *)
Record Stats : Type := {
  total : Z;
  completed_count : Z;
  in_progress_count : Z;
  failed_count : Z;
  upcoming_count : Z;
  success_rate : PyNum.number
}.

(** [DailyBrief] *)
Record DailyBrief : Type := {
  date : datetime;
  completed : list TaskSummary.TaskSummary;
  in_progress : list TaskSummary.TaskSummary;
  failed : list TaskSummary.TaskSummary;
  upcoming : list TaskSummary.TaskSummary;
  stats : Stats
}.

Module BriefGenerator.

Import PyNum PyText.

(** [generate]; [now] is what [datetime.now()] returns when no date is
    given. *)
Definition generate (now : datetime) (tasks : list TaskSummary.TaskSummary)
    (date : option datetime) : DailyBrief :=
  let date := match date with Some d => d | None => now end in
  let completed :=
    filter (fun t => String.eqb (TaskSummary.status t) "completed") tasks in
  let in_progress :=
    filter (fun t => String.eqb (TaskSummary.status t) "running") tasks in
  let failed :=
    filter (fun t => String.eqb (TaskSummary.status t) "failed") tasks in
  let upcoming :=
    filter (fun t => String.eqb (TaskSummary.status t) "pending") tasks in
  let stats :=
    {| total := PyList.len tasks;
       completed_count := PyList.len completed;
       in_progress_count := PyList.len in_progress;
       failed_count := PyList.len failed;
       upcoming_count := PyList.len upcoming;
       success_rate :=
         if 0 <? PyList.len completed + PyList.len failed
         then Float (truediv (PyList.len completed)
                             (PyList.len completed + PyList.len failed)
                     * 100)%float
         else Int 0 |} in
  {| date := date;
     completed := completed;
     in_progress := in_progress;
     failed := failed;
     upcoming := upcoming;
     stats := stats |}.

(** Truth value of an optional string: there and not empty.  (In the
    messages below, a symbol outside ASCII stands as its UTF-8 bytes.) *)
Definition present (s : option string) : bool :=
  match s with
  | Some s => truthy s
  | None => false
  end.

Definition nls : string := String nl "".

(** A list is true when it is not empty. *)
Definition some {A : Type} (l : list A) : bool :=
  match l with
  | [] => false
  | _ :: _ => true
  end.

Definition to_slack_message (brief : DailyBrief) : string :=
  let date_str := PyDate.strftime_B_d_Y (date brief) in
  let msg := ("*🤖 Pilot Daily Brief - " ++ date_str ++ "*" ++ nls ++ nls)%string in
  let msg := (msg ++ "📊 *Summary*" ++ nls)%string in
  let msg := (msg ++ "• Completed: "
              ++ str_of_int (completed_count (stats brief)) ++ nls)%string in
  let msg := (msg ++ "• In Progress: "
              ++ str_of_int (in_progress_count (stats brief)) ++ nls)%string in
  let msg := (msg ++ "• Failed: "
              ++ str_of_int (failed_count (stats brief)) ++ nls)%string in
  let msg := (msg ++ "• Upcoming: "
              ++ str_of_int (upcoming_count (stats brief)) ++ nls)%string in
  let msg := (msg ++ "• Success Rate: "
              ++ format_0f (success_rate (stats brief)) ++ "%" ++ nls ++ nls)%string in
  let msg :=
    if some (completed brief) then
      let msg := (msg ++ "✅ *Completed*" ++ nls)%string in
      let msg :=
        fold_left
          (fun msg task =>
             let pr_link :=
               if present (TaskSummary.pr_url task)
               then (" (<" ++ get_or (TaskSummary.pr_url task) "" ++ "|PR>)")%string
               else "" in
             (msg ++ "• `" ++ TaskSummary.id task ++ "` "
              ++ TaskSummary.title task ++ pr_link ++ nls)%string)
          (firstn 5 (completed brief)) msg in
      let msg :=
        if 5 <? PyList.len (completed brief)
        then (msg ++ "  _...and "
              ++ str_of_int (PyList.len (completed brief) - 5)%Z
              ++ " more_" ++ nls)%string
        else msg in
      (msg ++ nls)%string
    else msg in
  let msg :=
    if some (in_progress brief) then
      let msg := (msg ++ "⏳ *In Progress*" ++ nls)%string in
      let msg :=
        fold_left
          (fun msg task =>
             (msg ++ "• `" ++ TaskSummary.id task ++ "` "
              ++ TaskSummary.title task ++ nls)%string)
          (firstn 5 (in_progress brief)) msg in
      (msg ++ nls)%string
    else msg in
  let msg :=
    if some (failed brief) then
      let msg := (msg ++ "❌ *Failed (needs attention)*" ++ nls)%string in
      let msg :=
        fold_left
          (fun msg task =>
             let error :=
               if present (TaskSummary.error task)
               then (": " ++ take 50 (get_or (TaskSummary.error task) "")
                     ++ "...")%string
               else "" in
             (msg ++ "• `" ++ TaskSummary.id task ++ "` "
              ++ TaskSummary.title task ++ error ++ nls)%string)
          (firstn 3 (failed brief)) msg in
      (msg ++ nls)%string
    else msg in
  let msg :=
    if some (upcoming brief) then
      let msg := (msg ++ "📋 *Next Up*" ++ nls)%string in
      fold_left
        (fun msg task =>
           (msg ++ "• `" ++ TaskSummary.id task ++ "` "
            ++ TaskSummary.title task ++ nls)%string)
        (firstn 3 (upcoming brief)) msg
    else msg in
  msg.

Definition to_markdown (brief : DailyBrief) : string :=
  let date_str := PyDate.strftime_B_d_Y (date brief) in
  let md := ("# Pilot Daily Brief - " ++ date_str ++ nls ++ nls)%string in
  let md := (md ++ "## Summary" ++ nls ++ nls)%string in
  let md := (md ++ "| Metric | Count |" ++ nls)%string in
  let md := (md ++ "|--------|-------|" ++ nls)%string in
  let md := (md ++ "| Completed | "
             ++ str_of_int (completed_count (stats brief)) ++ " |" ++ nls)%string in
  let md := (md ++ "| In Progress | "
             ++ str_of_int (in_progress_count (stats brief)) ++ " |" ++ nls)%string in
  let md := (md ++ "| Failed | "
             ++ str_of_int (failed_count (stats brief)) ++ " |" ++ nls)%string in
  let md := (md ++ "| Upcoming | "
             ++ str_of_int (upcoming_count (stats brief)) ++ " |" ++ nls)%string in
  let md := (md ++ "| Success Rate | "
             ++ format_0f (success_rate (stats brief)) ++ "% |" ++ nls ++ nls)%string in
  let md :=
    if some (completed brief) then
      let md := (md ++ "## ✅ Completed" ++ nls ++ nls)%string in
      let md :=
        fold_left
          (fun md task =>
             let pr_link :=
               if present (TaskSummary.pr_url task)
               then (" - [PR](" ++ get_or (TaskSummary.pr_url task) "" ++ ")")%string
               else "" in
             (md ++ "- **" ++ TaskSummary.id task ++ "**: "
              ++ TaskSummary.title task ++ pr_link ++ nls)%string)
          (completed brief) md in
      (md ++ nls)%string
    else md in
  let md :=
    if some (in_progress brief) then
      let md := (md ++ "## ⏳ In Progress" ++ nls ++ nls)%string in
      let md :=
        fold_left
          (fun md task =>
             (md ++ "- **" ++ TaskSummary.id task ++ "**: "
              ++ TaskSummary.title task ++ nls)%string)
          (in_progress brief) md in
      (md ++ nls)%string
    else md in
  let md :=
    if some (failed brief) then
      let md := (md ++ "## ❌ Failed" ++ nls ++ nls)%string in
      let md :=
        fold_left
          (fun md task =>
             let md := (md ++ "- **" ++ TaskSummary.id task ++ "**: "
                        ++ TaskSummary.title task ++ nls)%string in
             if present (TaskSummary.error task)
             then (md ++ "  - Error: "
                   ++ get_or (TaskSummary.error task) "" ++ nls)%string
             else md)
          (failed brief) md in
      (md ++ nls)%string
    else md in
  let md :=
    if some (upcoming brief) then
      let md := (md ++ "## 📋 Upcoming" ++ nls ++ nls)%string in
      fold_left
        (fun md task =>
           (md ++ "- **" ++ TaskSummary.id task ++ "**: "
            ++ TaskSummary.title task ++ nls)%string)
        (upcoming brief) md
    else md in
  md.

End BriefGenerator.

(** A task dictionary of [generate_brief]: the keys it reads. *)
Record SummaryDict : Type := {
  s_id : option string;
  s_title : option string;
  s_status : option string;
  s_pr_url : option string;
  s_error : option string
}.

(** [generate_brief]; [now] is what [datetime.now()] returns. *)
Definition generate_brief (now : datetime) (tasks_data : list SummaryDict)
    (format : string) : string :=
  let tasks :=
    map (fun t =>
           {| TaskSummary.id := get_or (s_id t) "";
              TaskSummary.title := get_or (s_title t) "";
              TaskSummary.status := get_or (s_status t) "pending";
              TaskSummary.pr_url := s_pr_url t;
              TaskSummary.completed_at := None;
              TaskSummary.error := s_error t |})
        tasks_data in
  let brief := BriefGenerator.generate now tasks None in
  if String.eqb format "markdown" then BriefGenerator.to_markdown brief
  else BriefGenerator.to_slack_message brief.

(** ** Notions used to state the properties of the brief *)

(** A status that [generate] files under one of its four headings. *)
Definition known_status (s : string) : bool :=
  String.eqb s "completed" || String.eqb s "running"
  || String.eqb s "failed" || String.eqb s "pending".

(** The tasks of one status, in the order of the list. *)
Definition with_status (s : string) (tasks : list TaskSummary.TaskSummary)
  : list TaskSummary.TaskSummary :=
  filter (fun t => String.eqb (TaskSummary.status t) s) tasks.

Definition sample_summary (i s : string) : TaskSummary.TaskSummary :=
  {| TaskSummary.id := i; TaskSummary.title := "";
     TaskSummary.status := s; TaskSummary.pr_url := None;
     TaskSummary.completed_at := None; TaskSummary.error := None |}.

Definition sample_dict (i t s : string) (url e : option string) : SummaryDict :=
  {| s_id := Some i; s_title := Some t; s_status := Some s;
     s_pr_url := url; s_error := e |}.

(** * Properties *)

(** ** The float conversions on known values *)

Example ratio_to_float_is_division :
  forallb (fun '(n, d) =>
             (PyFloat.ratio_to_float n d
              =? of_uint63 (of_Z n) / of_uint63 (of_Z d))%float)
          [(1, 3); (2, 3); (1, 10); (8100, 100); (355, 113);
           (9007199254740991, 7); (123456789, 1000)]
  = true.
Proof. vm_compute. reflexivity. Qed.

Example int_to_float_ties_to_even :
  PyFloat.int_to_float (2 ^ 53 + 1) = Ok 9007199254740992%float /\
  PyFloat.int_to_float (2 ^ 53 + 3) = Ok 9007199254740996%float /\
  PyFloat.int_to_float (- 125) = Ok (-125)%float /\
  PyFloat.int_to_float (2 ^ 1024 - 2 ^ 970 - 1)
  = Ok 0x1.fffffffffffffp+1023%float /\
  PyFloat.int_to_float (2 ^ 1024 - 2 ^ 970) = Raise OverflowError.
Proof. repeat split; vm_compute; reflexivity. Qed.

Example round2_known_values :
  PyFloat.round2 0.125%float = 0.12%float /\
  PyFloat.round2 0.375%float = 0.38%float /\
  PyFloat.round2 2.675%float = 2.67%float /\
  PyFloat.round2 1.005%float = 1%float /\
  PyFloat.round2 36.650000000000006%float = 36.65%float /\
  PyFloat.round2 (-0.001)%float = (-0)%float /\
  PyFloat.round2 81%float = 81%float.
Proof. repeat split; vm_compute; reflexivity. Qed.

(** ** The order of floats

    [<], [<=] and [==] on floats that are not NaN form a total preorder;
    the facts are read off the specification of the comparison on
    [spec_float]. *)

Module FloatOrder.

Ltac cmp_cases :=
  repeat match goal with
  | H : context [Pos.compare_cont Eq ?a ?b] |- _ =>
      change (Pos.compare_cont Eq a b) with (Pos.compare a b) in H
  | |- context [Pos.compare_cont Eq ?a ?b] =>
      change (Pos.compare_cont Eq a b) with (Pos.compare a b)
  end;
  repeat match goal with
  | H : context [Z.compare ?a ?b] |- _ => destruct (Z.compare_spec a b)
  | |- context [Z.compare ?a ?b] => destruct (Z.compare_spec a b)
  | H : context [Pos.compare ?a ?b] |- _ => destruct (Pos.compare_spec a b)
  | |- context [Pos.compare ?a ?b] => destruct (Pos.compare_spec a b)
  end.

Ltac sf_cases :=
  repeat match goal with
  | x : spec_float |- _ => destruct x as [[]|[]| |[] ? ?]
  end;
  unfold SFltb, SFleb, SFeqb, SFcompare in *; simpl in *;
  try congruence; cmp_cases; simpl in *; subst; try congruence; try lia.

Lemma SFltb_irrefl x : SFltb x x = false.
Proof. sf_cases. Qed.

Lemma SFltb_trans x y z :
  SFltb x y = true -> SFltb y z = true -> SFltb x z = true.
Proof. intros. sf_cases. Qed.

Lemma SFltb_negtrans x y z :
  ordered x -> ordered y -> ordered z ->
  SFltb x y = false -> SFltb y z = false -> SFltb x z = false.
Proof. unfold ordered. intros. sf_cases. Qed.

Lemma SFeqb_ltb x y :
  ordered x -> ordered y ->
  SFeqb x y = negb (SFltb x y) && negb (SFltb y x).
Proof. unfold ordered. intros. sf_cases. Qed.

Lemma SFleb_ltb x y :
  ordered x -> ordered y -> SFleb x y = negb (SFltb y x).
Proof. unfold ordered. intros. sf_cases. Qed.

Lemma SFeqb_refl x : ordered x -> SFeqb x x = true.
Proof. unfold ordered. intros. sf_cases. Qed.

Lemma SFeqb_nan_l x : SFeqb S754_nan x = false.
Proof. reflexivity. Qed.

Lemma not_nan_ordered (f : float) : is_nan f = false -> ordered (Prim2SF f).
Proof.
  unfold is_nan, ordered. rewrite FloatAxioms.eqb_spec. intros H E.
  rewrite E in H. discriminate H.
Qed.

Lemma eqb_not_nan_l (f g : float) : (f =? g)%float = true -> is_nan f = false.
Proof.
  unfold is_nan. rewrite !FloatAxioms.eqb_spec. intros H.
  rewrite SFeqb_refl; [reflexivity|].
  intros E. rewrite E in H. discriminate H.
Qed.

Lemma ltb_irrefl (f : float) : (f <? f)%float = false.
Proof. rewrite FloatAxioms.ltb_spec. apply SFltb_irrefl. Qed.

Lemma ltb_trans (f g h : float) :
  (f <? g)%float = true -> (g <? h)%float = true -> (f <? h)%float = true.
Proof. rewrite !FloatAxioms.ltb_spec. apply SFltb_trans. Qed.

Lemma ltb_negtrans (f g h : float) :
  is_nan f = false -> is_nan g = false -> is_nan h = false ->
  (f <? g)%float = false -> (g <? h)%float = false -> (f <? h)%float = false.
Proof.
  intros Hf Hg Hh. rewrite !FloatAxioms.ltb_spec.
  apply SFltb_negtrans; now apply not_nan_ordered.
Qed.

Lemma eqb_ltb (f g : float) :
  is_nan f = false -> is_nan g = false ->
  (f =? g)%float = negb (f <? g)%float && negb (g <? f)%float.
Proof.
  intros Hf Hg. rewrite FloatAxioms.eqb_spec, !FloatAxioms.ltb_spec.
  apply SFeqb_ltb; now apply not_nan_ordered.
Qed.

Lemma leb_ltb (f g : float) :
  is_nan f = false -> is_nan g = false ->
  (f <=? g)%float = negb (g <? f)%float.
Proof.
  intros Hf Hg. rewrite FloatAxioms.leb_spec, FloatAxioms.ltb_spec.
  apply SFleb_ltb; now apply not_nan_ordered.
Qed.

End FloatOrder.

(** ** The sort *)

Module SortFacts.

Import PySort.

Section Order.
Context {A : Type} (lt : A -> A -> bool) (good : A -> Prop).

(** On the [good] elements [lt] is a strict weak order. *)
Hypothesis lt_irrefl : forall x, good x -> lt x x = false.
Hypothesis lt_trans : forall x y z, good x -> good y -> good z ->
  lt x y = true -> lt y z = true -> lt x z = true.
Hypothesis lt_negtrans : forall x y z, good x -> good y -> good z ->
  lt x y = false -> lt y z = false -> lt x z = false.

Local Abbreviation asc := (PySort.asc lt).

Lemma lt_asym x y : good x -> good y -> lt x y = true -> lt y x = false.
Proof.
  intros Hx Hy Hxy. destruct (lt y x) eqn:Hyx; [|reflexivity].
  rewrite <- (lt_irrefl x Hx). symmetry. now apply (lt_trans x y x).
Qed.

Lemma insert_perm x l : Permutation (x :: l) (insert lt x l).
Proof.
  induction l as [|y l IH]; simpl; [reflexivity|].
  destruct (lt x y); [reflexivity|].
  rewrite perm_swap. now apply perm_skip.
Qed.

Lemma fold_insert_perm l acc :
  Permutation (acc ++ l) (fold_left (fun acc x => insert lt x acc) l acc).
Proof.
  revert acc. induction l as [|x l IH]; intros acc; simpl.
  - now rewrite app_nil_r.
  - rewrite <- IH. rewrite <- Permutation_middle.
    exact (Permutation_app_tail l (insert_perm x acc)).
Qed.

Lemma sort_perm l : Permutation l (sort lt l).
Proof. exact (fold_insert_perm l []). Qed.

Lemma insert_good x l : good x -> Forall good l -> Forall good (insert lt x l).
Proof.
  intros Hx Hl. eapply Permutation_Forall; [apply insert_perm|].
  now constructor.
Qed.

Lemma insert_sorted x l :
  good x -> Forall good l ->
  StronglySorted asc l -> StronglySorted asc (insert lt x l).
Proof.
  intros Hx Hg Hs. induction Hs as [|y l Hs IH Hy]; simpl.
  - repeat constructor.
  - inversion Hg as [|? ? Gy Gl]; subst.
    destruct (lt x y) eqn:Hxy.
    + constructor; [now constructor|].
      constructor; [now apply lt_asym|].
      rewrite Forall_forall in *. intros e He. unfold PySort.asc.
      destruct (lt e x) eqn:Hex; [|reflexivity].
      rewrite <- (Hy e He). symmetry. apply (lt_trans e x y); auto.
    + constructor; [now apply IH|].
      eapply Permutation_Forall; [apply insert_perm|].
      now constructor.
Qed.

Lemma fold_insert_sorted l acc :
  Forall good l -> Forall good acc -> StronglySorted asc acc ->
  StronglySorted asc (fold_left (fun acc x => insert lt x acc) l acc).
Proof.
  revert acc. induction l as [|x l IH]; intros acc Hl Ha Hs; simpl; [exact Hs|].
  inversion Hl; subst.
  apply IH; [assumption| now apply insert_good | now apply insert_sorted].
Qed.

Lemma sort_sorted l : Forall good l -> StronglySorted asc (sort lt l).
Proof. intros Hl. apply fold_insert_sorted; [assumption|constructor|constructor]. Qed.

(** A class of elements none of which is below another keeps its order. *)
Section Stable.
Variable p : A -> bool.
Hypothesis p_class : forall a b, good a -> good b ->
  p a = true -> p b = true -> lt a b = false.

Lemma insert_filter x l :
  good x -> Forall good l -> StronglySorted asc l ->
  filter p (insert lt x l) = filter p l ++ filter p [x].
Proof.
  intros Hx Hg Hs. induction Hs as [|y l Hs IH Hy]; [reflexivity|].
  inversion Hg as [|? ? Gy Gl]; subst.
  cbn [insert]. destruct (lt x y) eqn:Hxy.
  - cbn [filter app]. destruct (p x) eqn:Hpx; [|now rewrite app_nil_r].
    assert (Hnone : forall e, In e (y :: l) -> p e = false).
    { intros e He. destruct (p e) eqn:Hpe; [|reflexivity].
      assert (Ge : good e) by (rewrite Forall_forall in Hg; auto).
      assert (Hey : lt e y = false).
      { destruct He as [->|He]; [now apply lt_irrefl|].
        rewrite Forall_forall in Hy. exact (Hy e He). }
      assert (Hxy' : lt x y = false) by (apply (lt_negtrans x e y); auto).
      congruence. }
    assert (Hnil : filter p (y :: l) = []).
    { clear - Hnone. induction (y :: l) as [|e l' IH']; [reflexivity|].
      cbn [filter]. rewrite (Hnone e (or_introl eq_refl)).
      apply IH'. intros e' He'. apply Hnone. now right. }
    cbn [filter] in Hnil. now rewrite Hnil.
  - cbn [filter]. rewrite (IH Gl). now destruct (p y).
Qed.

Lemma fold_insert_filter l acc :
  Forall good l -> Forall good acc -> StronglySorted asc acc ->
  filter p (fold_left (fun acc x => insert lt x acc) l acc)
  = filter p acc ++ filter p l.
Proof.
  revert acc. induction l as [|x l IH]; intros acc Hl Ha Hs; simpl fold_left.
  - now rewrite app_nil_r.
  - inversion Hl; subst.
    rewrite IH; [|assumption| now apply insert_good | now apply insert_sorted].
    rewrite insert_filter by assumption.
    rewrite <- app_assoc. f_equal. simpl. now destruct (p x).
Qed.

Lemma sort_filter l : Forall good l -> filter p (sort lt l) = filter p l.
Proof.
  intros Hl. unfold sort.
  rewrite fold_insert_filter; [reflexivity|assumption|constructor|constructor].
Qed.

End Stable.
End Order.

Lemma StronglySorted_snoc {A : Type} (R : A -> A -> Prop) l x :
  StronglySorted R l -> Forall (fun a => R a x) l -> StronglySorted R (l ++ [x]).
Proof.
  intros Hs. induction Hs as [|a l Hs IH Ha]; intros Hx; simpl.
  - repeat constructor.
  - inversion Hx; subst. constructor; [now apply IH|].
    apply Forall_app. split; [assumption|now constructor].
Qed.

Lemma StronglySorted_rev {A : Type} (R : A -> A -> Prop) l :
  StronglySorted R l -> StronglySorted (fun a b => R b a) (rev l).
Proof.
  intros Hs. induction Hs as [|a l Hs IH Ha]; simpl; [constructor|].
  apply StronglySorted_snoc; [assumption|].
  now apply Forall_rev.
Qed.

Lemma filter_rev' {A : Type} (p : A -> bool) l :
  filter p (rev l) = rev (filter p l).
Proof.
  induction l as [|a l IH]; [reflexivity|].
  simpl. rewrite filter_app, IH. simpl.
  destruct (p a); simpl; [reflexivity|now rewrite app_nil_r].
Qed.

Lemma filter_cons_split {A : Type} (p : A -> bool) l a y :
  filter p l = a :: y ->
  exists l1 l2, l = l1 ++ a :: l2 /\ filter p l2 = y.
Proof.
  induction l as [|x l IH]; simpl; [discriminate|].
  destruct (p x).
  - intros E. injection E as -> <-. now exists [], l.
  - intros E. destruct (IH E) as (l1 & l2 & -> & H).
    now exists (x :: l1), l2.
Qed.

Lemma filter_app_split {A : Type} (p : A -> bool) x :
  forall l y, filter p l = x ++ y ->
  exists l1 l2, l = l1 ++ l2 /\ filter p l2 = y.
Proof.
  induction x as [|a x IH]; intros l y E.
  - now exists [], l.
  - apply filter_cons_split in E as (l1 & l2 & -> & E).
    apply IH in E as (m1 & m2 & -> & E).
    exists (l1 ++ a :: m1), m2. split; [|exact E].
    now rewrite <- app_assoc.
Qed.

(** Two elements that a filter keeps, in this order, stand in this order
    in every list with the same filtered list. *)
Lemma filter_keeps_order {A : Type} (p : A -> bool) l out l1 a l2 b l3 :
  filter p out = filter p l ->
  l = l1 ++ a :: l2 ++ b :: l3 -> p a = true -> p b = true ->
  exists m1 m2 m3, out = m1 ++ a :: m2 ++ b :: m3.
Proof.
  intros E -> Ha Hb.
  rewrite filter_app in E. cbn [filter] in E. rewrite Ha in E.
  rewrite filter_app in E. cbn [filter] in E. rewrite Hb in E.
  apply filter_app_split in E as (o1 & o2 & -> & E).
  apply filter_cons_split in E as (n1 & n2 & -> & E).
  apply filter_app_split in E as (q1 & q2 & -> & E).
  apply filter_cons_split in E as (r1 & r2 & -> & _).
  exists (o1 ++ n1), (q1 ++ r1), r2.
  now rewrite <- !app_assoc.
Qed.

(** [sorted] with [reverse=True] over keys that are not NaN: a
    permutation, in descending order of the key, each class of equal keys
    in its original order. *)
Section Descending.
Context {A : Type} (key : A -> float).

Local Abbreviation keyed := (keyed key).

Lemma sorted_reverse_perm l : Permutation l (sorted l key true).
Proof.
  unfold sorted. rewrite <- Permutation_rev.
  rewrite <- sort_perm. apply Permutation_rev.
Qed.

Lemma sorted_reverse_descending l :
  Forall keyed l ->
  StronglySorted (fun a b => (key b <=? key a)%float = true) (sorted l key true).
Proof.
  intros Hl. unfold sorted.
  set (lt := fun a b => (key a <? key b)%float).
  assert (Hr : Forall keyed (rev l)) by now apply Forall_rev.
  assert (Hs : StronglySorted (asc lt) (sort lt (rev l))).
  { apply (sort_sorted lt keyed); [| |exact Hr].
    - intros x _. apply FloatOrder.ltb_irrefl.
    - intros x y z _ _ _. apply FloatOrder.ltb_trans. }
  assert (Hg : Forall keyed (rev (sort lt (rev l)))).
  { apply Forall_rev. eapply Permutation_Forall; [apply sort_perm|exact Hr]. }
  apply StronglySorted_rev in Hs.
  revert Hg Hs. generalize (rev (sort lt (rev l))) as out.
  intros out Hg Hs. induction Hs as [|a out Hs IH Ha]; [constructor|].
  inversion Hg as [|? ? Ga Gout]; subst. constructor; [now apply IH|].
  rewrite Forall_forall in *. intros b Hb.
  rewrite FloatOrder.leb_ltb; [|exact (Gout b Hb)|exact Ga].
  specialize (Ha b Hb). unfold PySort.asc, lt in Ha. now rewrite Ha.
Qed.

Lemma sorted_reverse_stable l v :
  Forall keyed l ->
  filter (fun a => (key a =? v)%float) (sorted l key true)
  = filter (fun a => (key a =? v)%float) l.
Proof.
  intros Hl. unfold sorted.
  rewrite filter_rev'.
  rewrite (sort_filter (fun a b => (key a <? key b)%float) keyed).
  - now rewrite filter_rev', rev_involutive.
  - intros x _. apply FloatOrder.ltb_irrefl.
  - intros x y z _ _ _. apply FloatOrder.ltb_trans.
  - intros x y z. apply FloatOrder.ltb_negtrans.
  - intros a b Ga Gb Ha Hb.
    assert (E : (key a =? key b)%float = true).
    { rewrite FloatAxioms.eqb_spec in *.
      pose proof (FloatOrder.not_nan_ordered _ Ga).
      pose proof (FloatOrder.not_nan_ordered _ Gb).
      revert Ha Hb. generalize (Prim2SF (key a)) (Prim2SF (key b)) (Prim2SF v) H H0.
      clear. unfold ordered. intros x y z Hx Hy.
      FloatOrder.sf_cases. }
    rewrite FloatOrder.eqb_ltb in E by assumption.
    now destruct (key a <? key b)%float.
  - now apply Forall_rev.
Qed.

Lemma sorted_reverse_keeps_order l l1 a l2 b l3 :
  Forall keyed l ->
  l = l1 ++ a :: l2 ++ b :: l3 -> (key a =? key b)%float = true ->
  exists m1 m2 m3, sorted l key true = m1 ++ a :: m2 ++ b :: m3.
Proof.
  intros Hl E Hab.
  apply (filter_keeps_order (fun x => (key x =? key a)%float) l _ l1 a l2 b l3).
  - now apply sorted_reverse_stable.
  - exact E.
  - rewrite FloatAxioms.eqb_spec. apply FloatOrder.SFeqb_refl.
    apply FloatOrder.not_nan_ordered. now apply (FloatOrder.eqb_not_nan_l _ (key b)).
  - rewrite FloatAxioms.eqb_spec in *.
    revert Hab. generalize (Prim2SF (key a)) (Prim2SF (key b)).
    clear. intros x y. FloatOrder.sf_cases.
Qed.

End Descending.

End SortFacts.

(** ** [score_task], step by step *)

Lemma bind_Ok {A B : Type} (r : result A) (k : A -> result B) (b : B) :
  (x <- r ;; k x) = Ok b -> exists a, r = Ok a /\ k a = Ok b.
Proof. destruct r as [a|e]; simpl; [eauto|discriminate]. Qed.

Lemma bind_Raise {A B : Type} (r : result A) (k : A -> result B) :
  raises r -> raises (x <- r ;; k x).
Proof. intros [e ->]. now exists e. Qed.

Lemma result_cases {A : Type} (r : result A) : returns r \/ raises r.
Proof. destruct r; [left|right]; eexists; reflexivity. Qed.

Lemma returns_not_raises {A : Type} (r : result A) : returns r -> raises r -> False.
Proof. intros [a ->] [e E]. discriminate E. Qed.

Lemma float_sized_bound : 25 * 2 ^ 1000 + 125 < PyFloat.overflow_bound.
Proof. vm_compute. reflexivity. Qed.

Lemma int_to_float_returns (i : Z) :
  Z.abs i < PyFloat.overflow_bound -> returns (PyFloat.int_to_float i).
Proof.
  intros Hi. unfold PyFloat.int_to_float.
  destruct (Z.leb_spec PyFloat.overflow_bound (Z.abs i)); [lia|].
  eexists; reflexivity.
Qed.

Lemma int_mul_float_returns (i : Z) (w : float) :
  Z.abs i < PyFloat.overflow_bound -> returns (PyFloat.int_mul_float i w).
Proof.
  intros Hi. unfold PyFloat.int_mul_float.
  destruct (int_to_float_returns i Hi) as [f ->]. eexists; reflexivity.
Qed.

Lemma weighted_total_returns (b a c d l : Z) :
  Z.abs b < PyFloat.overflow_bound -> Z.abs a < PyFloat.overflow_bound ->
  Z.abs c < PyFloat.overflow_bound -> Z.abs d < PyFloat.overflow_bound ->
  Z.abs l < PyFloat.overflow_bound ->
  returns (weighted_total (factor_dict b a c d l)).
Proof.
  intros Hb Ha Hc Hd Hl. unfold weighted_total, factor_dict.
  cbn [keys WEIGHTS map fst mapM getitem get String.eqb Ascii.eqb Bool.eqb bind].
  destruct (int_mul_float_returns b 0.4%float Hb) as [fb ->].
  destruct (int_mul_float_returns a 0.2%float Ha) as [fa ->].
  destruct (int_mul_float_returns c 0.15%float Hc) as [fc ->].
  destruct (int_mul_float_returns d 0.15%float Hd) as [fd ->].
  destruct (int_mul_float_returns l 0.1%float Hl) as [fl ->].
  cbn [bind]. eexists; reflexivity.
Qed.

(** [score_task], step by step. *)
Lemma score_task_with_eq lower now id ti p created cx ls bc :
  score_task_with lower now id ti p created cx ls bc =
  (a <- age_score now created ;;
   total <- weighted_total
              (factor_dict (Z.max 0 ((5 - p) * 25)) a (complexity_score cx)
                           (Z.min 100 (bc * 20)) (label_score_with lower ls)) ;;
   Ok {| task_id := id; title := ti; raw_priority := p;
         score := PyFloat.round2 total;
         factors := factor_dict (Z.max 0 ((5 - p) * 25)) a (complexity_score cx)
                                (Z.min 100 (bc * 20))
                                (label_score_with lower ls) |}).
Proof.
  unfold score_task_with, age_score.
  destruct created as [created|]; [|reflexivity].
  destruct (sub (naive now) created); reflexivity.
Qed.

Lemma score_task_with_Ok lower now id ti p created cx ls bc st :
  score_task_with lower now id ti p created cx ls bc = Ok st ->
  exists a,
    age_score now created = Ok a /\
    factors st = factor_dict (Z.max 0 ((5 - p) * 25)) a (complexity_score cx)
                             (Z.min 100 (bc * 20)) (label_score_with lower ls).
Proof.
  rewrite score_task_with_eq. intros H.
  apply bind_Ok in H as (a & Ha & H).
  apply bind_Ok in H as (total & _ & H).
  injection H as <-. exists a. split; [assumption|reflexivity].
Qed.

Lemma score_task_eq now id ti p created cx ls bc :
  score_task now id ti p created cx ls bc =
  (a <- age_score now created ;;
   total <- weighted_total
              (factor_dict (Z.max 0 ((5 - p) * 25)) a (complexity_score cx)
                           (Z.min 100 (bc * 20)) (label_score ls)) ;;
   Ok {| task_id := id; title := ti; raw_priority := p;
         score := PyFloat.round2 total;
         factors := factor_dict (Z.max 0 ((5 - p) * 25)) a (complexity_score cx)
                                (Z.min 100 (bc * 20)) (label_score ls) |}).
Proof. exact (score_task_with_eq PyStr.lower now id ti p created cx ls bc). Qed.

Lemma score_task_Ok now id ti p created cx ls bc st :
  score_task now id ti p created cx ls bc = Ok st ->
  exists a,
    age_score now created = Ok a /\
    factors st = factor_dict (Z.max 0 ((5 - p) * 25)) a (complexity_score cx)
                             (Z.min 100 (bc * 20)) (label_score ls) /\
    task_id st = id /\ title st = ti /\ raw_priority st = p.
Proof.
  rewrite score_task_eq. intros H.
  apply bind_Ok in H as (a & Ha & H).
  apply bind_Ok in H as (total & _ & H).
  injection H as <-. exists a. repeat split; assumption.
Qed.

Lemma complexity_score_cases cx :
  complexity_score cx = 80 \/ complexity_score cx = 50 \/ complexity_score cx = 30.
Proof.
  unfold complexity_score, get_default. cbn [get].
  destruct (String.eqb cx "low"); [now left|].
  destruct (String.eqb cx "medium"); [now right; left|].
  destruct (String.eqb cx "high"); [now right; right|now right; left].
Qed.

Lemma of_list_In_acc (l : list string) acc x :
  In x (fold_left (fun acc x => set_add string_dec x acc) l acc)
  <-> In x acc \/ In x l.
Proof.
  revert acc. induction l as [|y l IH]; intros acc; simpl.
  - tauto.
  - rewrite IH, set_add_iff. intuition auto.
Qed.

Lemma of_list_In (l : list string) x : In x (PySet.of_list l) <-> In x l.
Proof. unfold PySet.of_list. rewrite of_list_In_acc. simpl. tauto. Qed.

Lemma set_truthy_iff (s : set string) : PySet.truthy s = true <-> exists x, In x s.
Proof.
  destruct s as [|x s]; simpl.
  - split; [discriminate|intros [x []]].
  - split; [eauto|reflexivity].
Qed.

Lemma label_set_urgent_with lower (ls : list string) :
  PySet.truthy (PySet.inter (PySet.of_list (map lower ls)) URGENT_LABELS)
  = existsb (is_urgent_with lower) ls.
Proof.
  apply eq_true_iff_eq. rewrite set_truthy_iff, existsb_exists. split.
  - intros [x Hx]. apply set_inter_elim in Hx as [Hx Hu].
    apply of_list_In, in_map_iff in Hx as (label & <- & Hl).
    exists label. split; [assumption|]. now apply set_mem_correct2.
  - intros (label & Hl & Hu). exists (lower label).
    apply set_inter_intro.
    + apply of_list_In, in_map. assumption.
    + now apply set_mem_correct1 in Hu.
Qed.

Lemma label_score_with_urgent lower labels :
  label_score_with lower labels
  = if has_urgent_with lower labels then 100 else 0.
Proof.
  destruct labels as [[|l ls]|]; [reflexivity| |reflexivity].
  unfold label_score_with, has_urgent_with.
  now rewrite label_set_urgent_with.
Qed.

Lemma label_score_urgent labels :
  label_score labels = if has_urgent labels then 100 else 0.
Proof. exact (label_score_with_urgent PyStr.lower labels). Qed.

(** Lowering and comparing is comparing without regard to case, when the
    word compared with is its own lowercase form. *)
Lemma all_chars_complete c : In c all_chars.
Proof.
  unfold all_chars. rewrite <- (ascii_nat_embedding c).
  apply in_map, in_seq. pose proof (nat_ascii_bounded c). lia.
Qed.

Lemma lower_char_same_letter c d :
  PyStr.lower_char d = d ->
  Ascii.eqb (PyStr.lower_char c) d = same_letter c d.
Proof.
  assert (H : forallb (fun c =>
                forallb (fun d =>
                  implb (Ascii.eqb (PyStr.lower_char d) d)
                        (Bool.eqb (Ascii.eqb (PyStr.lower_char c) d)
                                  (same_letter c d)))
                  all_chars) all_chars = true)
    by (vm_compute; reflexivity).
  intros Hd. rewrite forallb_forall in H.
  specialize (H c (all_chars_complete c)). rewrite forallb_forall in H.
  specialize (H d (all_chars_complete d)).
  rewrite Hd, Ascii.eqb_refl in H. now apply Bool.eqb_prop.
Qed.

Lemma lower_same_word s : forall u,
  PyStr.lower u = u -> String.eqb (PyStr.lower s) u = same_word s u.
Proof.
  induction s as [|c s IH]; intros [|d u] Hu; try reflexivity.
  cbn [PyStr.lower String.eqb same_word]. cbn [PyStr.lower] in Hu.
  injection Hu as Hd Hu.
  rewrite (lower_char_same_letter c d Hd), (IH u Hu).
  now destruct (same_letter c d).
Qed.

Lemma set_mem_existsb (x : string) (l : list string) :
  set_mem string_dec x l = existsb (String.eqb x) l.
Proof.
  induction l as [|y l IH]; [reflexivity|]. cbn [set_mem existsb].
  destruct (string_dec x y) as [->|N].
  - now rewrite String.eqb_refl.
  - apply String.eqb_neq in N. now rewrite N.
Qed.

Lemma is_urgent_spells label : is_urgent label = spells_urgent label.
Proof.
  unfold is_urgent, spells_urgent. rewrite set_mem_existsb.
  unfold URGENT_LABELS. cbn [existsb].
  now rewrite !lower_same_word by reflexivity.
Qed.

Lemma label_score_cases labels : label_score labels = 0 \/ label_score labels = 100.
Proof. rewrite label_score_urgent. destruct (has_urgent labels); auto. Qed.

Lemma age_score_returns now created :
  subtractable now created ->
  exists a, age_score now created = Ok a /\ -18260295 <= a <= 100.
Proof.
  destruct created as [[us off]|]; simpl.
  - intros (-> & Hn & Hc). unfold in_range in *. simpl in *.
    eexists. split; [reflexivity|].
    assert (Hd : -3652059 <= days (now - us) <= 3652059).
    { unfold days, max_micros, day in *.
      split; [apply Z.div_le_lower_bound|apply Z.div_le_upper_bound]; lia. }
    lia.
  - intros _. exists 0. split; [reflexivity|lia].
Qed.

Lemma score_task_returns now id ti p created cx ls bc :
  subtractable now created -> float_sized p -> float_sized bc ->
  returns (score_task now id ti p created cx ls bc).
Proof.
  intros Hs Hp Hb. rewrite score_task_eq.
  destruct (age_score_returns now created Hs) as (a & -> & Ha). cbn [bind].
  pose proof float_sized_bound as B. unfold float_sized in *.
  destruct (weighted_total_returns (Z.max 0 ((5 - p) * 25)) a
              (complexity_score cx) (Z.min 100 (bc * 20)) (label_score ls))
    as [total ->].
  - lia.
  - lia.
  - destruct (complexity_score_cases cx) as [-> | [-> | ->]]; lia.
  - lia.
  - destruct (label_score_cases ls) as [-> | ->]; lia.
  - eexists; reflexivity.
Qed.

(** ** Factors of one task *)

Lemma factor_dict_keys b a c d l :
  keys (factor_dict b a c d l)
  = ["base_priority"; "age"; "complexity"; "dependencies"; "labels"].
Proof. reflexivity. Qed.

Lemma factor_dict_get b a c d l k v :
  get (factor_dict b a c d l) k = Some v ->
  v = b \/ v = a \/ v = c \/ v = d \/ v = l.
Proof.
  unfold factor_dict. cbn [get].
  repeat match goal with
  | |- context [String.eqb k ?s] => destruct (String.eqb k s)
  end; intros H; inversion H; auto.
Qed.

(** C1, as stated, fails: priority 0 is given the base-priority factor
    125, where the clamp of the specification gives 100. *)
Lemma base_priority_exceeds_100 :
  score_task 0 "TASK-1" "Fix login bug" 0 None "medium" None 0
  = Ok {| task_id := "TASK-1"; title := "Fix login bug"; raw_priority := 0;
          score := 57.5%float;
          factors := factor_dict 125 0 50 0 0 |}
  /\ clamp 0 100 ((5 - 0) * 25) = 100.
Proof. split; vm_compute; reflexivity. Qed.

(** C1 (amended): for every integer priority and every integer blocking
    count of a magnitude of at most [2^1000], which a double can hold, and
    a timestamp that is absent or naive, [score_task] raises nothing and
    the base-priority factor is [max(0, (5 - priority) * 25)]: it is
    clamped at 0 from below and not clamped from above, so it is the clamp
    into [0, 100] of the specification when the priority is at least 1,
    and exceeds 100 below that. *)
Theorem base_priority_clamped_below now id ti p created cx ls bc :
  subtractable now created -> float_sized p -> float_sized bc ->
  exists st,
    score_task now id ti p created cx ls bc = Ok st /\
    get (factors st) "base_priority" = Some (Z.max 0 ((5 - p) * 25)) /\
    (1 <= p -> Z.max 0 ((5 - p) * 25) = clamp 0 100 ((5 - p) * 25)) /\
    (p < 1 -> 100 < Z.max 0 ((5 - p) * 25)).
Proof.
  intros Hs Hp Hb.
  destruct (score_task_returns now id ti p created cx ls bc Hs Hp Hb) as [st E].
  exists st. split; [exact E|].
  apply score_task_Ok in E as (a & _ & -> & _).
  split; [reflexivity|]. unfold clamp. split; lia.
Qed.

Lemma base_priority_clamped_below_witness :
  exists st,
    score_task 0 "TASK-9" "" 7 None "high" (Some ["feature"]) 2 = Ok st /\
    get (factors st) "base_priority" = Some (Z.max 0 ((5 - 7) * 25)) /\
    (1 <= 7 -> Z.max 0 ((5 - 7) * 25) = clamp 0 100 ((5 - 7) * 25)) /\
    (7 < 1 -> 100 < Z.max 0 ((5 - 7) * 25)).
Proof.
  apply (base_priority_clamped_below 0 "TASK-9" "" 7 None "high"
           (Some ["feature"]) 2).
  - exact I.
  - unfold float_sized. vm_compute. discriminate.
  - unfold float_sized. vm_compute. discriminate.
Defined.

(** C3, as stated, fails: a task created one day after [now] is given the
    age factor -5. *)
Lemma age_factor_negative :
  score_task (10 * day) "TASK-2" "" 2 (Some (naive (11 * day))) "low" None 1
  = Ok {| task_id := "TASK-2"; title := ""; raw_priority := 2;
          score := 44%float;
          factors := factor_dict 75 (-5) 80 20 0 |}
  /\ -5 < 0.
Proof. split; vm_compute; reflexivity. Qed.

(** C3 (amended): for a priority of at least 1, a blocking count of at
    least 0 and a timestamp that is absent or not later than [now], the
    factors map of the returned [ScoredTask] holds the five factors and
    each of its values lies in [0, 100]. *)
Theorem factors_within_0_100 now id ti p created cx ls bc st :
  score_task now id ti p created cx ls bc = Ok st ->
  1 <= p -> 0 <= bc -> not_later now created ->
  keys (factors st)
  = ["base_priority"; "age"; "complexity"; "dependencies"; "labels"] /\
  forall k v, get (factors st) k = Some v -> 0 <= v <= 100.
Proof.
  intros E Hp Hb Hn.
  apply score_task_Ok in E as (a & Ha & -> & _).
  split; [reflexivity|]. intros k v Hv.
  assert (Hage : 0 <= a <= 100).
  { destruct created as [[us off]|]; simpl in Ha, Hn.
    - unfold sub in Ha. simpl in Ha. destruct off; [discriminate|].
      injection Ha as <-.
      assert (0 <= days (now - us)) by (apply Z.div_pos; unfold day; lia).
      lia.
    - injection Ha as <-. lia. }
  apply factor_dict_get in Hv.
  destruct (complexity_score_cases cx) as [Hc | [Hc | Hc]];
  destruct (label_score_cases ls) as [Hl | Hl]; lia.
Qed.

Lemma factors_within_0_100_witness :
  keys (factor_dict 100 50 80 60 100)
  = ["base_priority"; "age"; "complexity"; "dependencies"; "labels"] /\
  forall k v, get (factor_dict 100 50 80 60 100) k = Some v -> 0 <= v <= 100.
Proof.
  apply (factors_within_0_100 (30 * day) "TASK-1" "Fix login bug" 1
           (Some (naive (20 * day))) "low" (Some ["critical"]) 3
           {| task_id := "TASK-1"; title := "Fix login bug"; raw_priority := 1;
              score := 81%float; factors := factor_dict 100 50 80 60 100 |}).
  - vm_compute. reflexivity.
  - lia.
  - lia.
  - vm_compute. discriminate.
Defined.

(** C4, as stated, fails: the blocking count -3 is given the
    dependencies factor -60, where clamping the count to 0 first gives 0. *)
Lemma negative_blocking_count_not_clamped :
  score_task 0 "TASK-3" "Refactor database layer" 4 None "high"
             (Some ["tech-debt"]) (-3)
  = Ok {| task_id := "TASK-3"; title := "Refactor database layer";
          raw_priority := 4; score := 5.5%float;
          factors := factor_dict 25 0 30 (-60) 0 |}
  /\ Z.min 100 (Z.max 0 (-3) * 20) = 0.
Proof. split; vm_compute; reflexivity. Qed.

(** C4 (amended): for every negative blocking count and every integer
    priority of a magnitude of at most [2^1000], which a double can hold,
    and a timestamp that is absent or naive, [score_task] raises nothing
    and the dependencies factor is the count times 20, a negative number:
    the count is not clamped. *)
Theorem negative_blocking_count_scaled now id ti p created cx ls bc :
  bc < 0 ->
  subtractable now created -> float_sized p -> float_sized bc ->
  exists st,
    score_task now id ti p created cx ls bc = Ok st /\
    get (factors st) "dependencies" = Some (bc * 20) /\
    bc * 20 < 0.
Proof.
  intros Hneg Hs Hp Hb.
  destruct (score_task_returns now id ti p created cx ls bc Hs Hp Hb) as [st E].
  exists st. split; [exact E|].
  apply score_task_Ok in E as (a & _ & -> & _).
  split; [|lia]. cbn [factor_dict get String.eqb Ascii.eqb Bool.eqb].
  f_equal. lia.
Qed.

Lemma negative_blocking_count_scaled_witness :
  exists st,
    score_task 0 "TASK-3" "" 4 None "high" None (-1) = Ok st /\
    get (factors st) "dependencies" = Some (-1 * 20) /\
    -1 * 20 < 0.
Proof.
  apply (negative_blocking_count_scaled 0 "TASK-3" "" 4 None "high" None (-1)).
  - lia.
  - exact I.
  - unfold float_sized. vm_compute. discriminate.
  - unfold float_sized. vm_compute. discriminate.
Defined.

(** C6: priority 1, complexity "low", labels ["critical"], blocking count
    3, created exactly 10 days before [now]: the factors are 100, 50, 80,
    60 and 100, and the score is 81.0. *)
Theorem concrete_scenario_81 now id ti :
  score_task now id ti 1 (Some (naive (now - 10 * day))) "low"
             (Some ["critical"]) 3
  = Ok {| task_id := id; title := ti; raw_priority := 1;
          score := 81%float;
          factors := factor_dict 100 50 80 60 100 |}.
Proof.
  rewrite score_task_eq. unfold age_score, sub, naive. cbn [utcoffset micros bind].
  replace (now - (now - 10 * day)) with (10 * day) by lia.
  vm_compute. reflexivity.
Qed.

(** C7: a task aged 20 days or more has the age factor 100, and a
    blocking count of 5 or more has the dependencies factor 100. *)
Theorem factors_saturate now id ti p created cx ls bc st :
  score_task now id ti p created cx ls bc = Ok st ->
  (forall dt, created = Some dt -> 20 * day <= now - micros dt ->
              get (factors st) "age" = Some 100) /\
  (5 <= bc -> get (factors st) "dependencies" = Some 100).
Proof.
  intros E. apply score_task_Ok in E as (a & Ha & -> & _).
  cbn [factor_dict get String.eqb Ascii.eqb Bool.eqb]. split.
  - intros [us off] -> Hage. simpl in Ha, Hage.
    unfold sub in Ha. simpl in Ha. destruct off; [discriminate|].
    injection Ha as <-. f_equal.
    assert (20 <= days (now - us)).
    { unfold days. apply Z.div_le_lower_bound; unfold day in *; lia. }
    lia.
  - intros Hb. f_equal. lia.
Qed.

Lemma factors_saturate_witness :
  (forall dt, Some (naive 0) = Some dt -> 20 * day <= 20 * day - micros dt ->
              get (factor_dict 75 100 50 100 0) "age" = Some 100) /\
  (5 <= 5 -> get (factor_dict 75 100 50 100 0) "dependencies" = Some 100).
Proof.
  apply (factors_saturate (20 * day) "TASK-4" "" 2 (Some (naive 0)) "medium"
           None 5
           {| task_id := "TASK-4"; title := ""; raw_priority := 2;
              score := 72.5%float; factors := factor_dict 75 100 50 100 0 |}).
  vm_compute. reflexivity.
Defined.

(** C8: of two tasks that differ in the priority only, the one with the
    lower priority number has the greater or equal base-priority factor. *)
Theorem base_priority_monotone now id ti p1 p2 created cx ls bc st1 st2 :
  p1 <= p2 ->
  score_task now id ti p1 created cx ls bc = Ok st1 ->
  score_task now id ti p2 created cx ls bc = Ok st2 ->
  exists b1 b2,
    get (factors st1) "base_priority" = Some b1 /\
    get (factors st2) "base_priority" = Some b2 /\
    b2 <= b1.
Proof.
  intros Hp E1 E2.
  apply score_task_Ok in E1 as (a1 & _ & -> & _).
  apply score_task_Ok in E2 as (a2 & _ & -> & _).
  do 2 eexists. split; [reflexivity|]. split; [reflexivity|]. lia.
Qed.

Lemma base_priority_monotone_witness :
  exists b1 b2,
    get (factor_dict 100 0 50 0 0) "base_priority" = Some b1 /\
    get (factor_dict 50 0 50 0 0) "base_priority" = Some b2 /\
    b2 <= b1.
Proof.
  apply (base_priority_monotone 0 "TASK-5" "" 1 3 None "medium" None 0
           {| task_id := "TASK-5"; title := ""; raw_priority := 1;
              score := 47.5%float; factors := factor_dict 100 0 50 0 0 |}
           {| task_id := "TASK-5"; title := ""; raw_priority := 3;
              score := 27.5%float; factors := factor_dict 50 0 50 0 0 |}).
  - lia.
  - vm_compute. reflexivity.
  - vm_compute. reflexivity.
Defined.

(** C9: of two tasks that differ in the labels only, one with a label
    whose lowercase form is urgent and one without, the first has the
    labels factor 100 and the second 0, whatever the other fields and
    whatever [str.lower] does to a label; a missing or an empty label list
    gives the labels factor 0.  The match is blind to case: on ASCII
    labels, where [str.lower] changes the capitals [A]..[Z] and nothing
    else, a label is urgent exactly when it spells one of the four words
    in any mix of capital and small letters. *)
Theorem labels_factor_override
    lower now id ti p created cx ls1 ls2 bc st1 st2 :
  score_task_with lower now id ti p created cx ls1 bc = Ok st1 ->
  score_task_with lower now id ti p created cx ls2 bc = Ok st2 ->
  has_urgent_with lower ls1 = true -> has_urgent_with lower ls2 = false ->
  get (factors st1) "labels" = Some 100 /\
  get (factors st2) "labels" = Some 0 /\
  (forall ls st, ls = None \/ ls = Some [] ->
     score_task_with lower now id ti p created cx ls bc = Ok st ->
     get (factors st) "labels" = Some 0) /\
  ((forall s, PyStr.is_ascii s = true -> lower s = PyStr.lower s) ->
   forall label, PyStr.is_ascii label = true ->
     is_urgent_with lower label = spells_urgent label).
Proof.
  intros E1 E2 H1 H2.
  apply score_task_with_Ok in E1 as (a1 & _ & ->).
  apply score_task_with_Ok in E2 as (a2 & _ & ->).
  cbn [factor_dict get String.eqb Ascii.eqb Bool.eqb].
  rewrite !label_score_with_urgent, H1, H2.
  split; [reflexivity|]. split; [reflexivity|]. split.
  - intros ls st Hls E.
    apply score_task_with_Ok in E as (a & _ & ->).
    cbn [factor_dict get String.eqb Ascii.eqb Bool.eqb].
    now destruct Hls as [-> | ->].
  - intros Hlower label Hl. unfold is_urgent_with. rewrite (Hlower label Hl).
    exact (is_urgent_spells label).
Qed.

Lemma labels_factor_override_witness :
  get (factor_dict 75 0 50 0 100) "labels" = Some 100 /\
  get (factor_dict 75 0 50 0 0) "labels" = Some 0 /\
  (forall ls st, ls = None \/ ls = Some [] ->
     score_task_with PyStr.lower 0 "TASK-6" "" 2 None "medium" ls 0 = Ok st ->
     get (factors st) "labels" = Some 0) /\
  ((forall s, PyStr.is_ascii s = true -> PyStr.lower s = PyStr.lower s) ->
   forall label, PyStr.is_ascii label = true ->
     is_urgent_with PyStr.lower label = spells_urgent label).
Proof.
  apply (labels_factor_override PyStr.lower 0 "TASK-6" "" 2 None "medium"
           (Some ["bug"; "HotFix"]) (Some ["bug"; "hot-fix"]) 0
           {| task_id := "TASK-6"; title := ""; raw_priority := 2;
              score := 47.5%float; factors := factor_dict 75 0 50 0 100 |}
           {| task_id := "TASK-6"; title := ""; raw_priority := 2;
              score := 37.5%float; factors := factor_dict 75 0 50 0 0 |}).
  - vm_compute. reflexivity.
  - vm_compute. reflexivity.
  - vm_compute. reflexivity.
  - vm_compute. reflexivity.
Defined.

(** ** The batch *)

Section BatchFacts.
Variable fromisoformat : string -> result datetime.
Variable clock : nat -> Z.

Lemma parse_created_at_raises task s :
  t_created_at task = Some s -> s <> "" -> raises (fromisoformat s) ->
  raises (parse_created_at fromisoformat task).
Proof.
  intros E Hs Hr. unfold parse_created_at. rewrite E.
  destruct s as [|c s]; [congruence|]. simpl PyStr.truthy. cbv iota.
  now apply bind_Raise.
Qed.

Lemma score_loop_raises tasks_data task :
  In task tasks_data ->
  (forall i, raises (score_one fromisoformat clock i task)) ->
  forall i scored, raises (score_loop fromisoformat clock i tasks_data scored).
Proof.
  intros Hin Hbad. induction tasks_data as [|t rest IH]; [destruct Hin|].
  intros i scored. cbn [score_loop].
  destruct (score_one fromisoformat clock i t) as [d|e] eqn:E.
  - cbn [bind]. destruct Hin as [-> | Hin].
    + destruct (Hbad i) as [e' E']. congruence.
    + now apply IH.
  - now exists e.
Qed.

Lemma score_loop_Ok tasks_data :
  forall i scored out,
    score_loop fromisoformat clock i tasks_data scored = Ok out ->
    exists ds, out = scored ++ ds /\ scored_from fromisoformat clock i tasks_data ds.
Proof.
  induction tasks_data as [|t rest IH]; intros i scored out H; cbn [score_loop] in H.
  - injection H as <-. exists []. split; [now rewrite app_nil_r|constructor].
  - apply bind_Ok in H as (d & Hd & H).
    apply IH in H as (ds & -> & Hds).
    exists (d :: ds). split; [now rewrite <- app_assoc|now constructor].
Qed.

Lemma score_loop_returns tasks_data :
  forall i scored ds,
    scored_from fromisoformat clock i tasks_data ds ->
    score_loop fromisoformat clock i tasks_data scored = Ok (scored ++ ds).
Proof.
  induction tasks_data as [|t rest IH]; intros i scored ds H; inversion H; subst.
  - cbn [score_loop]. now rewrite app_nil_r.
  - cbn [score_loop]. rewrite H3. cbn [bind].
    rewrite (IH _ _ _ H5). now rewrite <- app_assoc.
Qed.

Lemma scored_from_length i tasks_data ds :
  scored_from fromisoformat clock i tasks_data ds -> List.length ds = List.length tasks_data.
Proof. induction 1; simpl; congruence. Qed.

Lemma scorable_returns i task :
  scorable fromisoformat clock i task ->
  returns (score_one fromisoformat clock i task).
Proof.
  intros (Hp & Hb & Hc). unfold score_one.
  assert (Hparse : exists created, parse_created_at fromisoformat task = Ok created
                                   /\ subtractable (clock i) created).
  { unfold parse_created_at. destruct (t_created_at task) as [s|].
    - destruct Hc as [-> | (dt & E & Hdt)].
      + exists None. split; [reflexivity|exact I].
      + destruct s as [|c s]; [exists None; split; [reflexivity|exact I]|].
        simpl PyStr.truthy. cbv iota. rewrite E. exists (Some dt). now split.
    - exists None. split; [reflexivity|exact I]. }
  destruct Hparse as (created & -> & Hs). cbn [bind].
  destruct (score_task_returns (clock i) (get_or (t_id task) "")
              (get_or (t_title task) "") (get_or (t_priority task) 4) created
              (get_or (t_complexity task) "medium")
              (Some (get_or (t_labels task) []))
              (get_or (t_blocking_count task) 0) Hs Hp Hb) as [st ->].
  eexists; reflexivity.
Qed.

Lemma scorable_scored_from tasks_data :
  forall i,
    (forall j task, nth_error tasks_data j = Some task ->
                    scorable fromisoformat clock (i + j) task) ->
    exists ds, scored_from fromisoformat clock i tasks_data ds.
Proof.
  induction tasks_data as [|t rest IH]; intros i H.
  - exists []. constructor.
  - destruct (scorable_returns i t) as [d Hd].
    { specialize (H O t eq_refl). now rewrite Nat.add_0_r in H. }
    destruct (IH (S i)) as [ds Hds].
    { intros j task Hj. specialize (H (S j) task Hj).
      now rewrite Nat.add_succ_r in H. }
    exists (d :: ds). now constructor.
Qed.

Lemma score_loop_first_error pre :
  forall i scored bad post e,
    (forall j task, nth_error pre j = Some task ->
                    returns (score_one fromisoformat clock (i + j) task)) ->
    score_one fromisoformat clock (i + List.length pre) bad = Raise e ->
    score_loop fromisoformat clock i (pre ++ bad :: post) scored = Raise e.
Proof.
  induction pre as [|t pre IH]; intros i scored bad post e Hpre Hbad.
  - simpl in *. rewrite Nat.add_0_r in Hbad. now rewrite Hbad.
  - cbn [app score_loop].
    destruct (Hpre O t eq_refl) as [d Hd]. rewrite Nat.add_0_r in Hd.
    rewrite Hd. cbn [bind]. apply IH.
    + intros j task Hj. specialize (Hpre (S j) task Hj).
      now rewrite Nat.add_succ_r in Hpre.
    + simpl List.length in Hbad. now rewrite Nat.add_succ_r in Hbad.
Qed.

End BatchFacts.

(** C2, as stated, fails: an empty [created_at] is no timestamp, yet the
    batch returns and the task is scored with the age factor 0. *)
Lemma empty_timestamp_scored_as_absent :
  IsoFormat.fromisoformat "" = Raise ValueError /\
  score_tasks IsoFormat.fromisoformat (fun _ => sample_now)
              [sample_task "TASK-1" 2 (Some "")]
  = Ok [{| d_task_id := "TASK-1"; d_title := ""; d_raw_priority := 2;
           d_score := 37.5%float;
           d_factors := factor_dict 75 0 50 0 0 |}].
Proof. split; vm_compute; reflexivity. Qed.

(** C2 (amended): when a dictionary of the batch has a [created_at] that
    is not empty and that [fromisoformat] refuses, [score_tasks] raises and
    returns no list; when the dictionaries before it are scored, what it
    raises is the error of [fromisoformat].  A dictionary with an empty
    [created_at] is scored as the same dictionary without the key: with
    the age factor 0, and without an error when its priority and its
    blocking count are integers that a double can hold. *)
Theorem malformed_timestamp_raises fromisoformat clock :
  (forall tasks_data task s,
     In task tasks_data -> t_created_at task = Some s -> s <> "" ->
     raises (fromisoformat s) ->
     raises (score_tasks fromisoformat clock tasks_data)) /\
  (forall pre task post s e,
     t_created_at task = Some s -> s <> "" -> fromisoformat s = Raise e ->
     (forall j t, nth_error pre j = Some t ->
                  returns (score_one fromisoformat clock j t)) ->
     score_tasks fromisoformat clock (pre ++ task :: post) = Raise e) /\
  (forall i task,
     t_created_at task = Some "" ->
     score_one fromisoformat clock i task
     = score_one fromisoformat clock i (created_at_absent task) /\
     (forall d, score_one fromisoformat clock i task = Ok d ->
                get (d_factors d) "age" = Some 0) /\
     (float_sized (get_or (t_priority task) 4) ->
      float_sized (get_or (t_blocking_count task) 0) ->
      returns (score_one fromisoformat clock i task))).
Proof.
  split; [|split].
  - intros tasks_data task s Hin E Hs Hr. unfold score_tasks.
    apply bind_Raise.
    apply (score_loop_raises fromisoformat clock tasks_data task Hin).
    intros i. unfold score_one. apply bind_Raise.
    now apply (parse_created_at_raises fromisoformat task s).
  - intros pre task post s e E Hs He Hpre. unfold score_tasks.
    rewrite (score_loop_first_error fromisoformat clock pre 0 [] task post e);
      [reflexivity| |].
    + exact Hpre.
    + unfold score_one, parse_created_at. rewrite E.
      destruct s as [|c s]; [congruence|].
      simpl PyStr.truthy. cbv iota. now rewrite He.
  - intros i task E.
    assert (Hparse : parse_created_at fromisoformat task = Ok None)
      by (unfold parse_created_at; now rewrite E).
    split; [|split].
    + unfold score_one. rewrite Hparse. reflexivity.
    + intros d Hd. unfold score_one in Hd. rewrite Hparse in Hd.
      cbn [bind] in Hd. apply bind_Ok in Hd as (st & Hst & Hd).
      injection Hd as <-. apply score_task_Ok in Hst as (a & Ha & Hf & _).
      unfold to_dict. cbn [d_factors]. rewrite Hf.
      injection Ha as <-. reflexivity.
    + intros Hp Hb. apply scorable_returns. unfold scorable.
      rewrite E. split; [exact Hp|]. split; [exact Hb|]. now left.
Qed.

Lemma malformed_timestamp_raises_witness :
  score_tasks IsoFormat.fromisoformat (fun _ => sample_now)
    ([sample_task "TASK-1" 2 None]
     ++ sample_task "TASK-2" 1 (Some "yesterday")
        :: [sample_task "TASK-3" 3 None])
  = Raise ValueError.
Proof.
  apply (proj1 (proj2 (malformed_timestamp_raises IsoFormat.fromisoformat
                         (fun _ => sample_now)))
           [sample_task "TASK-1" 2 None]
           (sample_task "TASK-2" 1 (Some "yesterday"))
           [sample_task "TASK-3" 3 None] "yesterday" ValueError).
  - reflexivity.
  - discriminate.
  - vm_compute. reflexivity.
  - intros [|j] t H.
    + injection H as <-. eexists. vm_compute. reflexivity.
    + destruct j; discriminate H.
Defined.

(** C10, at the failing input: a timestamp with a UTC offset parses, and
    the batch then raises [TypeError] where the claim has it return one
    record. *)
Theorem offset_timestamp_raises clock :
  IsoFormat.fromisoformat "2024-01-01T00:00:00+00:00"
  = Ok {| micros := 738885 * day; utcoffset := Some 0 |} /\
  score_tasks IsoFormat.fromisoformat clock
              [sample_task "TASK-1" 2 (Some "2024-01-01T00:00:00+00:00")]
  = Raise TypeError.
Proof. split; vm_compute; reflexivity. Qed.

(** X1: every scorable batch is scored: [score_tasks] returns a permutation of
    the records of its dictionaries, one for each, and the empty list for
    the empty batch. *)
Theorem score_tasks_permutation fromisoformat clock tasks_data :
  (forall i task, nth_error tasks_data i = Some task ->
                  scorable fromisoformat clock i task) ->
  exists scored out,
    scored_from fromisoformat clock 0 tasks_data scored /\
    score_tasks fromisoformat clock tasks_data = Ok out /\
    Permutation scored out /\
    List.length out = List.length tasks_data /\
    (tasks_data = [] -> out = []).
Proof.
  intros H.
  destruct (scorable_scored_from fromisoformat clock tasks_data 0 H) as [ds Hds].
  exists ds, (PySort.sorted ds (fun t => d_score t) true).
  split; [exact Hds|]. split.
  { unfold score_tasks.
    now rewrite (score_loop_returns fromisoformat clock tasks_data 0 [] ds Hds). }
  pose proof (SortFacts.sorted_reverse_perm (fun t => d_score t) ds) as P.
  split; [exact P|]. split.
  - rewrite <- (Permutation_length P).
    exact (scored_from_length fromisoformat clock 0 tasks_data ds Hds).
  - intros ->. inversion Hds. reflexivity.
Qed.

Lemma score_tasks_permutation_witness :
  exists scored out,
    scored_from IsoFormat.fromisoformat (fun _ => sample_now) 0
      [sample_task "TASK-1" 3 None;
       sample_task "TASK-2" 3 (Some "2024-01-01")] scored /\
    score_tasks IsoFormat.fromisoformat (fun _ => sample_now)
      [sample_task "TASK-1" 3 None;
       sample_task "TASK-2" 3 (Some "2024-01-01")] = Ok out /\
    Permutation scored out /\
    List.length out = List.length [sample_task "TASK-1" 3 None;
                         sample_task "TASK-2" 3 (Some "2024-01-01")] /\
    ([sample_task "TASK-1" 3 None;
      sample_task "TASK-2" 3 (Some "2024-01-01")] = [] -> out = []).
Proof.
  apply (score_tasks_permutation IsoFormat.fromisoformat (fun _ => sample_now)).
  intros [|[|i]] task H.
  - injection H as <-. unfold scorable, float_sized. simpl.
    repeat split; vm_compute; discriminate.
  - injection H as <-. unfold scorable, float_sized. simpl.
    split; [vm_compute; discriminate|]. split; [vm_compute; discriminate|].
    right. eexists. split; [vm_compute; reflexivity|].
    unfold in_range. simpl. repeat split; vm_compute; congruence.
  - destruct i; discriminate H.
Defined.

(** ** The ranking *)

(** C5: over scores that are numbers (none is NaN), [rank_tasks] and the
    final sort of [score_tasks] return a permutation of their input in
    descending order of the score; two tasks with equal scores stand in
    the output in their input order, and for every score the tasks with
    that score form the same sequence in the input and in the output;
    tasks A, B, C with the scores 50.0, 50.0, 70.0 are ranked C, A, B. *)
Theorem ranking_descending_stable :
  (forall tasks,
     Forall (fun t => is_nan (score t) = false) tasks ->
     Permutation tasks (rank_tasks tasks) /\
     StronglySorted (fun a b => (score b <=? score a)%float = true)
                    (rank_tasks tasks) /\
     (forall l1 a l2 b l3,
        tasks = l1 ++ a :: l2 ++ b :: l3 -> (score a =? score b)%float = true ->
        exists m1 m2 m3, rank_tasks tasks = m1 ++ a :: m2 ++ b :: m3) /\
     forall v, filter (fun t => (score t =? v)%float) (rank_tasks tasks)
               = filter (fun t => (score t =? v)%float) tasks) /\
  (forall fromisoformat clock tasks_data out,
     score_tasks fromisoformat clock tasks_data = Ok out ->
     Forall (fun d => is_nan (d_score d) = false) out ->
     exists scored,
       scored_from fromisoformat clock 0 tasks_data scored /\
       Permutation scored out /\
       StronglySorted (fun a b => (d_score b <=? d_score a)%float = true) out /\
       (forall l1 a l2 b l3,
          scored = l1 ++ a :: l2 ++ b :: l3 ->
          (d_score a =? d_score b)%float = true ->
          exists m1 m2 m3, out = m1 ++ a :: m2 ++ b :: m3) /\
       forall v, filter (fun d => (d_score d =? v)%float) out
                 = filter (fun d => (d_score d =? v)%float) scored) /\
  (forall A B C,
     score A = 50%float -> score B = 50%float -> score C = 70%float ->
     rank_tasks [A; B; C] = [C; A; B]).
Proof.
  split; [|split].
  - intros tasks Hn. unfold rank_tasks. split; [|split; [|split]].
    + apply SortFacts.sorted_reverse_perm.
    + now apply (SortFacts.sorted_reverse_descending (fun t => score t)).
    + intros l1 a l2 b l3.
      now apply (SortFacts.sorted_reverse_keeps_order (fun t => score t)).
    + intros v. now apply (SortFacts.sorted_reverse_stable (fun t => score t)).
  - intros fromisoformat clock tasks_data out E Hn. unfold score_tasks in E.
    apply bind_Ok in E as (scored & Hloop & E). injection E as <-.
    apply score_loop_Ok in Hloop as (ds & -> & Hds). simpl app in *.
    pose proof (SortFacts.sorted_reverse_perm (fun d => d_score d) ds) as P.
    assert (Hk : Forall (fun d => is_nan (d_score d) = false) ds).
    { eapply Permutation_Forall; [symmetry; exact P|exact Hn]. }
    exists ds. split; [exact Hds|]. split; [exact P|]. split; [|split].
    + now apply (SortFacts.sorted_reverse_descending (fun d => d_score d)).
    + intros l1 a l2 b l3.
      now apply (SortFacts.sorted_reverse_keeps_order (fun d => d_score d)).
    + intros v. now apply (SortFacts.sorted_reverse_stable (fun d => d_score d)).
  - intros [ia ta pa sa fa] [ib tb pb sb fb] [ic tc pc sc fc] HA HB HC.
    simpl in HA, HB, HC. subst sa sb sc.
    vm_compute. reflexivity.
Qed.

Lemma ranking_descending_stable_witness :
  Permutation
    [sample_scored "A" 50; sample_scored "B" 50; sample_scored "C" 70]
    (rank_tasks
       [sample_scored "A" 50; sample_scored "B" 50; sample_scored "C" 70]) /\
  StronglySorted (fun a b => (score b <=? score a)%float = true)
    (rank_tasks
       [sample_scored "A" 50; sample_scored "B" 50; sample_scored "C" 70]) /\
  (forall l1 a l2 b l3,
     [sample_scored "A" 50; sample_scored "B" 50; sample_scored "C" 70]
     = l1 ++ a :: l2 ++ b :: l3 ->
     (score a =? score b)%float = true ->
     exists m1 m2 m3,
       rank_tasks
         [sample_scored "A" 50; sample_scored "B" 50; sample_scored "C" 70]
       = m1 ++ a :: m2 ++ b :: m3) /\
  forall v,
    filter (fun t => (score t =? v)%float)
      (rank_tasks
         [sample_scored "A" 50; sample_scored "B" 50; sample_scored "C" 70])
    = filter (fun t => (score t =? v)%float)
        [sample_scored "A" 50; sample_scored "B" 50; sample_scored "C" 70].
Proof.
  apply (proj1 ranking_descending_stable).
  repeat constructor.
Defined.

(** ** Further facts about the scorer *)

(** X2: [score_task] raises nothing when the timestamp is absent or naive and
    the priority and the blocking count are integers a double can hold. *)
Theorem score_task_total now id ti p created cx ls bc :
  subtractable now created -> float_sized p -> float_sized bc ->
  exists st,
    score_task now id ti p created cx ls bc = Ok st /\
    task_id st = id /\ title st = ti /\ raw_priority st = p /\
    keys (factors st)
    = ["base_priority"; "age"; "complexity"; "dependencies"; "labels"].
Proof.
  intros Hs Hp Hb.
  destruct (score_task_returns now id ti p created cx ls bc Hs Hp Hb) as [st E].
  exists st. split; [exact E|].
  apply score_task_Ok in E as (a & _ & -> & -> & -> & ->).
  repeat split.
Qed.

Lemma score_task_total_witness :
  exists st,
    score_task sample_now "TASK-7" "Add user profile page" 3
      (Some (naive (738885 * day))) "medium" (Some ["feature"]) 0 = Ok st /\
    task_id st = "TASK-7" /\ title st = "Add user profile page" /\
    raw_priority st = 3 /\
    keys (factors st)
    = ["base_priority"; "age"; "complexity"; "dependencies"; "labels"].
Proof.
  apply (score_task_total sample_now "TASK-7" "Add user profile page" 3
           (Some (naive (738885 * day))) "medium" (Some ["feature"]) 0).
  - unfold subtractable, in_range. simpl.
    repeat split; vm_compute; congruence.
  - unfold float_sized. vm_compute. discriminate.
  - unfold float_sized. vm_compute. discriminate.
Defined.

(** Priority 4, complexity "high", no label, nothing blocked and no
    timestamp: the factors are 25, 0, 30, 0 and 0, and the score is 14.5. *)
Theorem concrete_scenario_low_priority now id ti :
  score_task now id ti 4 None "high" (Some []) 0
  = Ok {| task_id := id; title := ti; raw_priority := 4;
          score := 14.5%float;
          factors := factor_dict 25 0 30 0 0 |}.
Proof. vm_compute. reflexivity. Qed.

(** * Further properties of the scorer *)

Lemma score_task_Ok_score now id ti p created cx ls bc st :
  score_task now id ti p created cx ls bc = Ok st ->
  exists a total,
    age_score now created = Ok a /\
    weighted_total
      (factor_dict (Z.max 0 ((5 - p) * 25)) a (complexity_score cx)
                   (Z.min 100 (bc * 20)) (label_score ls)) = Ok total /\
    score st = PyFloat.round2 total /\
    factors st = factor_dict (Z.max 0 ((5 - p) * 25)) a (complexity_score cx)
                             (Z.min 100 (bc * 20)) (label_score ls).
Proof.
  rewrite score_task_eq. intros H.
  apply bind_Ok in H as (a & Ha & H).
  apply bind_Ok in H as (total & Ht & H).
  injection H as <-. exists a, total. repeat split; assumption.
Qed.

Lemma In_zrange (n : nat) (x : Z) : 0 <= x < Z.of_nat n -> In x (zrange n).
Proof.
  intros Hx. unfold zrange. apply in_map_iff. exists (Z.to_nat x).
  split; [lia|]. apply in_seq. lia.
Qed.

Lemma In_scaled (k : Z) (n : nat) (x : Z) :
  0 <= x < Z.of_nat n -> In (k * x) (map (Z.mul k) (zrange n)).
Proof. intros Hx. apply in_map. now apply In_zrange. Qed.

Lemma all_scores_exact_true :
  forallb (fun b =>
  forallb (fun a =>
  forallb (fun c =>
  forallb (fun d =>
  forallb (fun l => score_is_exact b a c d l)
    label_values) dependency_values) complexity_values) age_values) base_values
  = true.
Proof. vm_compute. reflexivity. Qed.

Lemma forallb_nested5 {A : Type} (f : A -> A -> A -> A -> A -> bool)
    (l1 l2 l3 l4 l5 : list A) :
  forallb (fun x1 =>
  forallb (fun x2 =>
  forallb (fun x3 =>
  forallb (fun x4 =>
  forallb (fun x5 => f x1 x2 x3 x4 x5) l5) l4) l3) l2) l1 = true ->
  forall x1 x2 x3 x4 x5,
    In x1 l1 -> In x2 l2 -> In x3 l3 -> In x4 l4 -> In x5 l5 ->
    f x1 x2 x3 x4 x5 = true.
Proof.
  intros H x1 x2 x3 x4 x5 H1 H2 H3 H4 H5.
  rewrite forallb_forall in H. specialize (H x1 H1).
  rewrite forallb_forall in H. specialize (H x2 H2).
  rewrite forallb_forall in H. specialize (H x3 H3).
  rewrite forallb_forall in H. specialize (H x4 H4).
  rewrite forallb_forall in H. exact (H x5 H5).
Qed.

Lemma score_is_exact_valid b a c d l :
  In b base_values -> In a age_values -> In c complexity_values ->
  In d dependency_values -> In l label_values ->
  score_is_exact b a c d l = true.
Proof.
  exact (forallb_nested5 score_is_exact base_values age_values
           complexity_values dependency_values label_values
           all_scores_exact_true b a c d l).
Qed.

Lemma age_score_valid now created a :
  age_score now created = Ok a -> not_later now created -> In a age_values.
Proof.
  intros Ha Hn. destruct created as [[us off]|]; simpl in Ha, Hn.
  - unfold sub in Ha. simpl in Ha. destruct off; [discriminate|].
    injection Ha as <-.
    assert (Hd : 0 <= days (now - us)) by (apply Z.div_pos; unfold day; lia).
    revert Hd. generalize (days (now - us)) as k. intros k Hd.
    replace (Z.min 100 (k * 5)) with (5 * Z.min 20 k) by lia.
    apply In_scaled. change (Z.of_nat 21) with 21. lia.
  - injection Ha as <-. apply (In_scaled 5 21 0). change (Z.of_nat 21) with 21. lia.
Qed.

(** X3: for a priority of at least 1, a blocking count of at least 0 and a
    timestamp that is absent or not later than [now], the score is the
    double nearest to the exact weighted sum of the factors (the sum in
    hundredths, divided by 100), and it lies between 4.5 and 97. *)
Theorem score_exact_and_bounded now id ti p created cx ls bc st :
  score_task now id ti p created cx ls bc = Ok st ->
  1 <= p -> 0 <= bc -> not_later now created ->
  exists b a c d l,
    factors st = factor_dict b a c d l /\
    score st
    = (of_uint63 (of_Z (weighted_hundredths b a c d l)) / 100)%float /\
    (4.5 <=? score st)%float = true /\
    (score st <=? 97)%float = true.
Proof.
  intros E Hp Hb Hn.
  apply score_task_Ok_score in E as (a & total & Ha & Ht & Hs & Hf).
  exists (Z.max 0 ((5 - p) * 25)), a, (complexity_score cx),
         (Z.min 100 (bc * 20)), (label_score ls).
  split; [exact Hf|].
  assert (Hok : score_is_exact (Z.max 0 ((5 - p) * 25)) a (complexity_score cx)
                  (Z.min 100 (bc * 20)) (label_score ls) = true).
  { apply score_is_exact_valid.
    - replace (Z.max 0 ((5 - p) * 25)) with (25 * Z.max 0 (5 - p)) by lia.
      apply In_scaled. change (Z.of_nat 5) with 5. clear - Hp. lia.
    - exact (age_score_valid now created a Ha Hn).
    - destruct (complexity_score_cases cx) as [-> | [-> | ->]]; simpl; auto.
    - replace (Z.min 100 (bc * 20)) with (20 * Z.min 5 bc) by lia.
      apply In_scaled. change (Z.of_nat 6) with 6. clear - Hb. lia.
    - destruct (label_score_cases ls) as [-> | ->]; simpl; auto. }
  unfold score_is_exact in Hok. rewrite Ht in Hok. rewrite <- Hs in Hok.
  apply andb_true_iff in Hok as [Hok H97].
  apply andb_true_iff in Hok as [Heq H45].
  apply Leibniz.eqb_spec in Heq. repeat split; assumption.
Qed.

Lemma score_exact_and_bounded_witness :
  exists b a c d l,
    factor_dict 100 50 80 60 100 = factor_dict b a c d l /\
    81%float = (of_uint63 (of_Z (weighted_hundredths b a c d l)) / 100)%float /\
    (4.5 <=? 81)%float = true /\
    (81 <=? 97)%float = true.
Proof.
  apply (score_exact_and_bounded (30 * day) "TASK-1" "Fix login bug" 1
           (Some (naive (20 * day))) "low" (Some ["critical"]) 3
           {| task_id := "TASK-1"; title := "Fix login bug"; raw_priority := 1;
              score := 81%float; factors := factor_dict 100 50 80 60 100 |}).
  - vm_compute. reflexivity.
  - lia.
  - lia.
  - vm_compute. discriminate.
Defined.

(** ** Ranking a list that is already ranked *)

Module RankFacts.

Import PySort.

Lemma StronglySorted_app_l {A : Type} (R : A -> A -> Prop) l1 l2 :
  StronglySorted R (l1 ++ l2) -> StronglySorted R l1.
Proof.
  induction l1 as [|a l1 IH]; simpl; intros H; [constructor|].
  inversion H as [|? ? Hs Ha]; subst. constructor; [now apply IH|].
  apply Forall_app in Ha. tauto.
Qed.

Lemma StronglySorted_app_mid {A : Type} (R : A -> A -> Prop) l1 x l2 :
  StronglySorted R (l1 ++ x :: l2) -> Forall (fun a => R a x) l1.
Proof.
  induction l1 as [|a l1 IH]; simpl; intros H; [constructor|].
  inversion H as [|? ? Hs Ha]; subst. constructor; [|now apply IH].
  apply Forall_app in Ha as [_ Ha]. now inversion Ha.
Qed.

Section Insertion.
Context {A : Type} (lt : A -> A -> bool).

Lemma insert_last x l :
  Forall (fun a => asc lt a x) l -> insert lt x l = l ++ [x].
Proof.
  induction 1 as [|a l Ha Hl IH]; [reflexivity|].
  simpl. unfold asc in Ha. now rewrite Ha, IH.
Qed.

Lemma fold_insert_sorted_id l acc :
  StronglySorted (asc lt) (acc ++ l) ->
  fold_left (fun acc x => insert lt x acc) l acc = acc ++ l.
Proof.
  revert acc. induction l as [|x l IH]; intros acc H; simpl.
  - now rewrite app_nil_r.
  - rewrite (insert_last x acc (StronglySorted_app_mid _ _ _ _ H)).
    rewrite IH; rewrite <- app_assoc; [reflexivity|exact H].
Qed.

Lemma sort_sorted_id l : StronglySorted (asc lt) l -> sort lt l = l.
Proof. intros H. exact (fold_insert_sorted_id l [] H). Qed.

End Insertion.

Lemma sorted_reverse_id {A : Type} (key : A -> float) (l : list A) :
  StronglySorted (fun a b => (key a <? key b)%float = false) l ->
  sorted l key true = l.
Proof.
  intros H. unfold sorted.
  rewrite sort_sorted_id; [apply rev_involutive|].
  exact (SortFacts.StronglySorted_rev _ l H).
Qed.

Lemma descending_not_below {A : Type} (key : A -> float) (l : list A) :
  Forall (keyed key) l ->
  StronglySorted (fun a b => (key b <=? key a)%float = true) l ->
  StronglySorted (fun a b => (key a <? key b)%float = false) l.
Proof.
  intros Hk Hs. induction Hs as [|a l Hs IH Ha]; [constructor|].
  inversion Hk as [|? ? Ka Kl]; subst. constructor; [now apply IH|].
  rewrite Forall_forall in *. intros b Hb.
  specialize (Ha b Hb). rewrite FloatOrder.leb_ltb in Ha; [|exact (Kl b Hb)|exact Ka].
  now destruct (key a <? key b)%float.
Qed.

End RankFacts.

(** X5: a list in which no task has a lower score than a later one is ranked
    as it is, and ranking a ranked list (of scores that are not NaN)
    changes nothing. *)
Theorem rank_tasks_idempotent :
  (forall tasks,
     StronglySorted (fun a b => (score a <? score b)%float = false) tasks ->
     rank_tasks tasks = tasks) /\
  (forall tasks,
     Forall (fun t => is_nan (score t) = false) tasks ->
     rank_tasks (rank_tasks tasks) = rank_tasks tasks).
Proof.
  split.
  - intros tasks H. now apply RankFacts.sorted_reverse_id.
  - intros tasks Hn. apply (RankFacts.sorted_reverse_id (fun t => score t)).
    apply RankFacts.descending_not_below.
    + eapply Permutation_Forall;
        [apply (SortFacts.sorted_reverse_perm (fun t => score t))|exact Hn].
    + now apply (SortFacts.sorted_reverse_descending (fun t => score t)).
Qed.

Lemma rank_tasks_idempotent_witness :
  rank_tasks [sample_scored "C" 70; sample_scored "A" 50; sample_scored "B" 50]
  = [sample_scored "C" 70; sample_scored "A" 50; sample_scored "B" 50].
Proof.
  apply (proj1 rank_tasks_idempotent).
  repeat constructor.
Defined.

(** ** Missing keys, errors and provenance in the batch *)

(** X6: a missing key is scored as its default: the id and the title as the
    empty string, the priority as 4, the complexity as "medium", the
    labels as the empty list and the blocking count as 0; an empty
    [created_at] is scored as a missing one. *)
Theorem missing_keys_are_defaults fromisoformat clock i task :
  score_one fromisoformat clock i task
  = score_one fromisoformat clock i (with_defaults task).
Proof.
  unfold score_one, parse_created_at, with_defaults. cbn [t_id t_title
    t_priority t_created_at t_complexity t_labels t_blocking_count get_or].
  destruct (t_created_at task) as [[|c s]|]; reflexivity.
Qed.

Section BatchErrors.
Variable fromisoformat : string -> result datetime.
Variable clock : nat -> Z.

Lemma scored_from_nth tasks_data :
  forall i ds, scored_from fromisoformat clock i tasks_data ds ->
  (forall j d, nth_error ds j = Some d ->
     exists task, nth_error tasks_data j = Some task /\
                  score_one fromisoformat clock (i + j) task = Ok d) /\
  (forall j task, nth_error tasks_data j = Some task ->
     exists d, nth_error ds j = Some d /\
               score_one fromisoformat clock (i + j) task = Ok d).
Proof.
  induction tasks_data as [|t rest IH]; intros i ds H; inversion H; subst.
  - split; intros [|j] x Hx; discriminate Hx.
  - destruct (IH _ _ H5) as [IH1 IH2]. split.
    + intros [|j] x Hx.
      * injection Hx as <-. exists t. rewrite Nat.add_0_r. now split.
      * destruct (IH1 j x Hx) as (task & Ht & Hs). exists task.
        rewrite Nat.add_succ_r. now split.
    + intros [|j] x Hx.
      * injection Hx as <-. exists d. rewrite Nat.add_0_r. now split.
      * destruct (IH2 j x Hx) as (d' & Hd & Hs). exists d'.
        rewrite Nat.add_succ_r. now split.
Qed.

Lemma score_one_provenance i task d :
  score_one fromisoformat clock i task = Ok d ->
  d_task_id d = get_or (t_id task) "" /\
  d_title d = get_or (t_title task) "" /\
  d_raw_priority d = get_or (t_priority task) 4 /\
  keys (d_factors d)
  = ["base_priority"; "age"; "complexity"; "dependencies"; "labels"].
Proof.
  unfold score_one. intros H.
  apply bind_Ok in H as (created & _ & H).
  apply bind_Ok in H as (st & Hst & H). injection H as <-.
  apply score_task_Ok in Hst as (a & _ & Hf & Hi & Ht & Hp).
  unfold to_dict. cbn [d_task_id d_title d_raw_priority d_factors].
  rewrite Hf, Hi, Ht, Hp. repeat split.
Qed.

End BatchErrors.

(** X7: the batch fails as a whole with the error of its first failing
    dictionary: when the dictionaries before it are scored and it raises
    [e], [score_tasks] raises [e], whatever follows. *)
Theorem first_error_is_reported fromisoformat clock pre bad post e :
  (forall j task, nth_error pre j = Some task ->
                  returns (score_one fromisoformat clock j task)) ->
  score_one fromisoformat clock (List.length pre) bad = Raise e ->
  score_tasks fromisoformat clock (pre ++ bad :: post) = Raise e.
Proof.
  intros Hpre Hbad. unfold score_tasks.
  now rewrite (score_loop_first_error fromisoformat clock pre 0 [] bad post e).
Qed.

Lemma first_error_is_reported_witness :
  score_tasks IsoFormat.fromisoformat (fun _ => sample_now)
    ([sample_task "TASK-1" 2 None]
     ++ sample_task "TASK-2" 1 (Some "2024-01-01T00:00:00+00:00")
        :: [sample_task "TASK-3" 1 (Some "yesterday")])
  = Raise TypeError.
Proof.
  apply (first_error_is_reported IsoFormat.fromisoformat (fun _ => sample_now)).
  - intros [|j] task H.
    + injection H as <-. eexists. vm_compute. reflexivity.
    + destruct j; discriminate H.
  - vm_compute. reflexivity.
Defined.

(** X8: every record that [score_tasks] returns is the record of one of the
    dictionaries, with its id, title and priority (or their defaults) and
    the five factors; every dictionary has its record in the result, and
    the result is as long as the batch. *)
Theorem score_tasks_provenance fromisoformat clock tasks_data out :
  score_tasks fromisoformat clock tasks_data = Ok out ->
  List.length out = List.length tasks_data /\
  (forall d, In d out ->
     exists i task,
       nth_error tasks_data i = Some task /\
       score_one fromisoformat clock i task = Ok d /\
       d_task_id d = get_or (t_id task) "" /\
       d_title d = get_or (t_title task) "" /\
       d_raw_priority d = get_or (t_priority task) 4 /\
       keys (d_factors d)
       = ["base_priority"; "age"; "complexity"; "dependencies"; "labels"]) /\
  (forall i task, nth_error tasks_data i = Some task ->
     exists d, In d out /\ score_one fromisoformat clock i task = Ok d).
Proof.
  intros E. unfold score_tasks in E.
  apply bind_Ok in E as (scored & Hloop & E). injection E as <-.
  apply score_loop_Ok in Hloop as (ds & -> & Hds). change ([] ++ ds) with ds.
  pose proof (SortFacts.sorted_reverse_perm (fun d => d_score d) ds) as P.
  destruct (scored_from_nth fromisoformat clock tasks_data 0 ds Hds) as [H1 H2].
  split; [|split].
  - transitivity (List.length ds); [symmetry; exact (Permutation_length P)|].
    exact (scored_from_length fromisoformat clock 0 tasks_data ds Hds).
  - intros d Hd. apply (Permutation_in _ (Permutation_sym P)) in Hd.
    apply In_nth_error in Hd as [j Hj].
    destruct (H1 j d Hj) as (task & Ht & Hs). exists j, task.
    split; [exact Ht|]. split; [exact Hs|].
    exact (score_one_provenance fromisoformat clock j task d Hs).
  - intros i task Ht. destruct (H2 i task Ht) as (d & Hd & Hs).
    exists d. split; [|exact Hs].
    apply (Permutation_in _ P). exact (nth_error_In _ _ Hd).
Qed.

Lemma score_tasks_provenance_witness :
  List.length
    [{| d_task_id := "TASK-1"; d_title := ""; d_raw_priority := 2;
        d_score := 37.5%float; d_factors := factor_dict 75 0 50 0 0 |}]
  = List.length [sample_task "TASK-1" 2 (Some "")].
Proof.
  apply (score_tasks_provenance IsoFormat.fromisoformat (fun _ => sample_now)
           [sample_task "TASK-1" 2 (Some "")]).
  vm_compute. reflexivity.
Defined.

(** ** Factors too large for a float, and factors that grow *)

Lemma int_to_float_overflows (i : Z) :
  PyFloat.overflow_bound <= Z.abs i ->
  PyFloat.int_to_float i = Raise OverflowError.
Proof.
  intros Hi. unfold PyFloat.int_to_float.
  destruct (Z.leb_spec PyFloat.overflow_bound (Z.abs i)); [reflexivity|lia].
Qed.

Lemma int_mul_float_overflows (i : Z) (w : float) :
  PyFloat.overflow_bound <= Z.abs i ->
  PyFloat.int_mul_float i w = Raise OverflowError.
Proof.
  intros Hi. unfold PyFloat.int_mul_float.
  now rewrite int_to_float_overflows.
Qed.

(** X4: a base-priority factor of [2^1024 - 2^970] or more, or a dependencies
    factor of minus that or less, cannot be converted for the weighted
    sum: [score_task] raises [OverflowError]. *)
Theorem huge_factor_overflows now id ti p created cx ls bc :
  subtractable now created ->
  PyFloat.overflow_bound <= (5 - p) * 25 \/
  (float_sized p /\ bc * 20 <= - PyFloat.overflow_bound) ->
  score_task now id ti p created cx ls bc = Raise OverflowError.
Proof.
  intros Hs H. rewrite score_task_eq.
  destruct (age_score_returns now created Hs) as (a & -> & Ha). cbn [bind].
  unfold weighted_total, factor_dict.
  cbn [keys WEIGHTS map fst mapM getitem get String.eqb Ascii.eqb Bool.eqb bind].
  pose proof float_sized_bound as B.
  destruct H as [Hp | [Hp Hb]].
  - rewrite int_mul_float_overflows by lia. reflexivity.
  - unfold float_sized in Hp.
    destruct (int_mul_float_returns (Z.max 0 ((5 - p) * 25)) 0.4%float)
      as [fb ->]; [lia|].
    destruct (int_mul_float_returns a 0.2%float) as [fa ->]; [lia|].
    destruct (int_mul_float_returns (complexity_score cx) 0.15%float)
      as [fc ->].
    { destruct (complexity_score_cases cx) as [-> | [-> | ->]]; lia. }
    cbn [bind]. rewrite int_mul_float_overflows by lia. reflexivity.
Qed.

Lemma huge_factor_overflows_witness :
  score_task 0 "TASK-8" "" (- 2 ^ 1030) None "low" None 0 = Raise OverflowError.
Proof.
  apply (huge_factor_overflows 0 "TASK-8" "" (- 2 ^ 1030) None "low" None 0).
  - exact I.
  - left. vm_compute. discriminate.
Defined.

(** X9: scoring the same task later never lowers its age factor, and a larger
    blocking count never lowers its dependencies factor. *)
Theorem age_and_dependencies_monotone
    now1 now2 id ti p created cx ls bc1 bc2 st1 st2 :
  now1 <= now2 -> bc1 <= bc2 ->
  score_task now1 id ti p created cx ls bc1 = Ok st1 ->
  score_task now2 id ti p created cx ls bc2 = Ok st2 ->
  exists a1 a2 d1 d2,
    get (factors st1) "age" = Some a1 /\
    get (factors st2) "age" = Some a2 /\ a1 <= a2 /\
    get (factors st1) "dependencies" = Some d1 /\
    get (factors st2) "dependencies" = Some d2 /\ d1 <= d2.
Proof.
  intros Hn Hb E1 E2.
  apply score_task_Ok in E1 as (a1 & Ha1 & -> & _).
  apply score_task_Ok in E2 as (a2 & Ha2 & -> & _).
  exists a1, a2, (Z.min 100 (bc1 * 20)), (Z.min 100 (bc2 * 20)).
  cbn [factor_dict get String.eqb Ascii.eqb Bool.eqb].
  repeat split; try lia.
  destruct created as [[us off]|]; simpl in Ha1, Ha2.
  - unfold sub in Ha1, Ha2. simpl in Ha1, Ha2. destruct off; [discriminate|].
    injection Ha1 as <-. injection Ha2 as <-.
    assert (days (now1 - us) <= days (now2 - us)).
    { unfold days. apply Z.div_le_mono; unfold day; lia. }
    lia.
  - injection Ha1 as <-. injection Ha2 as <-. lia.
Qed.

Lemma age_and_dependencies_monotone_witness :
  exists a1 a2 d1 d2,
    get (factor_dict 75 0 50 20 0) "age" = Some a1 /\
    get (factor_dict 75 25 50 40 0) "age" = Some a2 /\ a1 <= a2 /\
    get (factor_dict 75 0 50 20 0) "dependencies" = Some d1 /\
    get (factor_dict 75 25 50 40 0) "dependencies" = Some d2 /\ d1 <= d2.
Proof.
  apply (age_and_dependencies_monotone (738885 * day) sample_now "TASK-5" "" 2
           (Some (naive (738885 * day))) "medium" None 1 2
           {| task_id := "TASK-5"; title := ""; raw_priority := 2;
              score := 40.5%float; factors := factor_dict 75 0 50 20 0 |}
           {| task_id := "TASK-5"; title := ""; raw_priority := 2;
              score := 48.5%float; factors := factor_dict 75 25 50 40 0 |}).
  - vm_compute. discriminate.
  - lia.
  - vm_compute. reflexivity.
  - vm_compute. reflexivity.
Defined.

(** * Properties of the planner *)

Module TextFacts.

Import PyText.

Lemma append_nil_r s : (s ++ "")%string = s.
Proof. induction s as [|c s IH]; simpl; [reflexivity|now rewrite IH]. Qed.

Lemma append_assoc a b c : (a ++ (b ++ c))%string = ((a ++ b) ++ c)%string.
Proof. induction a as [|x a IH]; simpl; [reflexivity|now rewrite IH]. Qed.

Lemma split_not_nil sep s : split sep s <> [].
Proof.
  destruct s as [|c s]; simpl; [discriminate|].
  destruct (Ascii.eqb c sep); [discriminate|].
  destruct (split sep s); discriminate.
Qed.

Lemma split_no_sep sep s : has_char sep s = false -> split sep s = [s].
Proof.
  induction s as [|c s IH]; [reflexivity|]. simpl.
  intros H. apply orb_false_iff in H as [Hc Hs].
  now rewrite Hc, (IH Hs).
Qed.

Lemma split_app_sep sep a b :
  has_char sep a = false ->
  split sep (a ++ String sep b) = a :: split sep b.
Proof.
  induction a as [|c a IH]; simpl.
  - intros _. now rewrite Ascii.eqb_refl.
  - intros H. apply orb_false_iff in H as [Hc Ha].
    now rewrite Hc, (IH Ha).
Qed.

Lemma split_join sep ls :
  ls <> [] -> Forall (fun l => has_char sep l = false) ls ->
  split sep (join (String sep "") ls) = ls.
Proof.
  intros Hne H. induction H as [|l ls Hl Hls IH]; [congruence|].
  destruct ls as [|l' ls].
  - simpl. now apply split_no_sep.
  - change (join (String sep "") (l :: l' :: ls))
      with (l ++ String sep (join (String sep "") (l' :: ls)))%string.
    rewrite split_app_sep by assumption.
    rewrite IH; [reflexivity|discriminate].
Qed.

Lemma rstrip_cons c s :
  rstrip s <> "" -> rstrip (String c s) = String c (rstrip s).
Proof. simpl. destruct (rstrip s); [congruence|reflexivity]. Qed.

Lemma rstrip_fixed_cons c s :
  s <> "" -> rstrip s = s -> rstrip (String c s) = String c s.
Proof. intros Hs E. rewrite rstrip_cons; rewrite E; congruence. Qed.

Lemma take_length n s : (String.length (take n s) <= n)%nat.
Proof.
  revert s. induction n as [|n IH]; intros [|c s]; simpl; try lia.
  specialize (IH s). lia.
Qed.

End TextFacts.

Module PlannerFacts.

Import PyText TaskPlanner TextFacts.

Lemma extract_loop_acc lines :
  forall acc, extract_loop lines acc = acc ++ extract_loop lines [].
Proof.
  induction lines as [|l lines IH]; intros acc; cbn [extract_loop].
  - now rewrite app_nil_r.
  - destruct (startswith (strip l) "- " || startswith (strip l) "* ").
    + rewrite (IH (acc ++ _)), (IH ([] ++ _)). now rewrite <- app_assoc.
    + destruct (startswith (strip l) "[ ]" || startswith (strip l) "[x]").
      * rewrite (IH (acc ++ _)), (IH ([] ++ _)). now rewrite <- app_assoc.
      * apply IH.
Qed.

Lemma extract_loop_length lines :
  List.length (extract_loop lines []) = List.length (filter is_item lines).
Proof.
  induction lines as [|l lines IH]; [reflexivity|].
  cbn [extract_loop filter]. unfold is_item.
  destruct (startswith (strip l) "- " || startswith (strip l) "* ").
  - rewrite extract_loop_acc. cbn [orb app List.length]. now rewrite IH.
  - cbn [orb]. destruct (startswith (strip l) "[ ]"); cbn [orb].
    + rewrite extract_loop_acc. cbn [app List.length]. now rewrite IH.
    + destruct (startswith (strip l) "[x]").
      * rewrite extract_loop_acc. cbn [app List.length]. now rewrite IH.
      * exact IH.
Qed.

Lemma strip_bullet r :
  plain_requirement r -> strip ("- " ++ r)%string = ("- " ++ r)%string.
Proof.
  intros (Hne & Hr & _). unfold strip. cbn [append lstrip].
  change (is_space "-") with false. cbv iota.
  apply rstrip_fixed_cons; [discriminate|].
  now apply rstrip_fixed_cons.
Qed.

Lemma extract_loop_bullets rs :
  Forall plain_requirement rs ->
  extract_loop (map (fun r => ("- " ++ r)%string) rs) [] = rs.
Proof.
  induction 1 as [|r rs Hr Hrs IH]; [reflexivity|].
  cbn [map extract_loop]. rewrite (strip_bullet r Hr).
  change (startswith ("- " ++ r)%string "- ") with true. cbn [orb].
  rewrite extract_loop_acc, IH. reflexivity.
Qed.

End PlannerFacts.

(** X10: on a description of ASCII text, [_extract_requirements] never
    returns the empty list: it returns one requirement for every line
    that, stripped, starts with a bullet or a check box, and when there is
    no such line the first 200 characters of the description as the only
    requirement (the empty string for an empty description). *)
Theorem extract_requirements_count (description : string) :
  PyStr.is_ascii description = true ->
  let lines := PyText.split PyText.nl description in
  let items := filter is_item lines in
  TaskPlanner._extract_requirements description <> [] /\
  (items <> [] ->
     List.length (TaskPlanner._extract_requirements description)
     = List.length items) /\
  (items = [] ->
     TaskPlanner._extract_requirements description
     = [PyText.take 200 description] /\
     (String.length (PyText.take 200 description) <= 200)%nat) /\
  TaskPlanner._extract_requirements "" = [""].
Proof.
  intros _. cbv zeta. unfold TaskPlanner._extract_requirements.
  pose proof (PlannerFacts.extract_loop_length
                (PyText.split PyText.nl description)) as HL.
  split; [|split; [|split]].
  - destruct (TaskPlanner.extract_loop _ []); discriminate.
  - intros Hi.
    destruct (TaskPlanner.extract_loop _ []) as [|r rs]; [|exact HL].
    destruct (filter is_item _); [congruence|discriminate HL].
  - intros Hi. rewrite Hi in HL.
    destruct (TaskPlanner.extract_loop _ []) as [|r rs]; [|discriminate HL].
    split; [reflexivity|apply TextFacts.take_length].
  - reflexivity.
Qed.

(** X11: on ASCII text, a description that is one bullet line gives the
    text after the bullet as it is, check-box marker included; a
    description that is one check-box line gives the stripped text after
    the fourth character: the character that follows the closing bracket
    is dropped, whichever ASCII character it is. *)
Theorem extract_requirements_single_line :
  (forall r, PyStr.is_ascii r = true -> plain_requirement r ->
     TaskPlanner._extract_requirements ("- " ++ r)%string = [r] /\
     TaskPlanner._extract_requirements ("* " ++ r)%string = [r]) /\
  (forall c body,
     PyStr.is_ascii (String c body) = true ->
     has_char PyText.nl (String c body) = false ->
     PyText.rstrip (String c body) = String c body ->
     TaskPlanner._extract_requirements ("[ ]" ++ String c body)%string
     = [PyText.strip body] /\
     TaskPlanner._extract_requirements ("[x]" ++ String c body)%string
     = [PyText.strip body]).
Proof.
  split.
  - intros r _ Hr. pose proof Hr as (Hne & Hfix & Hnl).
    unfold TaskPlanner._extract_requirements. split.
    + rewrite TextFacts.split_no_sep by (simpl; exact Hnl).
      cbn [TaskPlanner.extract_loop].
      rewrite (PlannerFacts.strip_bullet r Hr). reflexivity.
    + rewrite TextFacts.split_no_sep by (simpl; exact Hnl).
      cbn [TaskPlanner.extract_loop].
      assert (E : PyText.strip ("* " ++ r)%string = ("* " ++ r)%string).
      { unfold PyText.strip. cbn [append PyText.lstrip].
        change (PyText.is_space "*") with false. cbv iota.
        apply TextFacts.rstrip_fixed_cons; [discriminate|].
        now apply TextFacts.rstrip_fixed_cons. }
      rewrite E. reflexivity.
  - intros c body _ Hnl Hfix.
    assert (Hs : forall b,
              PyText.strip (String "[" (String b (String "]" (String c body))))
              = String "[" (String b (String "]" (String c body)))).
    { intros b. unfold PyText.strip. cbn [PyText.lstrip].
      change (PyText.is_space "[") with false. cbv iota.
      apply TextFacts.rstrip_fixed_cons; [discriminate|].
      apply TextFacts.rstrip_fixed_cons; [discriminate|].
      apply TextFacts.rstrip_fixed_cons; [discriminate|exact Hfix]. }
    unfold TaskPlanner._extract_requirements. split.
    + rewrite TextFacts.split_no_sep by (simpl; exact Hnl).
      cbn [TaskPlanner.extract_loop append].
      rewrite (Hs " "%char). reflexivity.
    + rewrite TextFacts.split_no_sep by (simpl; exact Hnl).
      cbn [TaskPlanner.extract_loop append].
      rewrite (Hs "x"%char). reflexivity.
Qed.

Lemma extract_requirements_count_witness :
  List.length (TaskPlanner._extract_requirements "- Login") = 1%nat.
Proof.
  apply (proj1 (proj2 (extract_requirements_count "- Login" eq_refl))).
  discriminate.
Defined.

Lemma extract_requirements_single_line_witness :
  TaskPlanner._extract_requirements "- [ ] Login" = ["[ ] Login"] /\
  TaskPlanner._extract_requirements "* [ ] Login" = ["[ ] Login"].
Proof.
  apply (proj1 extract_requirements_single_line "[ ] Login").
  - reflexivity.
  - split; [discriminate|split; reflexivity].
Defined.

(** X12: the bullet list that [to_markdown] writes under "Requirements" is read
    back by [_extract_requirements] as the requirements themselves, when
    each of them is not empty, stands on one line and does not end in
    white space. *)
Theorem requirements_round_trip (rs : list string) :
  rs <> [] -> Forall plain_requirement rs ->
  TaskPlanner._extract_requirements
    (PyText.join (String PyText.nl "") (map (fun r => ("- " ++ r)%string) rs))
  = rs.
Proof.
  intros Hne Hrs. unfold TaskPlanner._extract_requirements.
  rewrite TextFacts.split_join.
  - rewrite (PlannerFacts.extract_loop_bullets rs Hrs).
    destruct rs; [congruence|reflexivity].
  - destruct rs; [congruence|discriminate].
  - apply Forall_map. eapply Forall_impl; [|exact Hrs].
    intros r (_ & _ & Hnl). exact Hnl.
Qed.

Lemma requirements_round_trip_witness :
  TaskPlanner._extract_requirements
    (PyText.join (String PyText.nl "")
       (map (fun r => ("- " ++ r)%string)
            ["Login with email/password"; "  JWT token management"]))
  = ["Login with email/password"; "  JWT token management"].
Proof.
  apply (requirements_round_trip
           ["Login with email/password"; "  JWT token management"]).
  - discriminate.
  - repeat constructor; discriminate.
Defined.

(** X13: the complexity that the planner estimates is always one of the three
    tiers of the scorer, so that scoring a planned task never falls back
    on the default; an urgent ticket (priority 1) has the base-priority
    factor 100 and the complexity factor 30.  For a description of ASCII
    text the complexity factor is 30 for an urgent ticket or a
    description of more than 500 characters, 50 for more than 200
    characters, and 80 otherwise. *)
Theorem planned_complexity_is_scored ticket now id ti created ls bc st :
  let task := TaskPlanner.plan_from_ticket ticket in
  score_task now id ti (Task.priority task) created
             (Task.estimated_complexity task) ls bc = Ok st ->
  In (Task.estimated_complexity task) ["low"; "medium"; "high"] /\
  (PyStr.is_ascii (Ticket.description ticket) = true ->
   get (factors st) "complexity"
   = Some (planned_complexity_factor (Ticket.priority ticket)
             (PyText.len (Ticket.description ticket)))) /\
  (Ticket.priority ticket = 1 ->
     get (factors st) "complexity" = Some 30 /\
     get (factors st) "base_priority" = Some 100).
Proof.
  cbv zeta. intros E.
  apply score_task_Ok in E as (a & _ & -> & _).
  cbn [factor_dict get String.eqb Ascii.eqb Bool.eqb].
  unfold TaskPlanner.plan_from_ticket.
  cbn [Task.estimated_complexity Task.priority].
  unfold TaskPlanner._estimate_complexity, planned_complexity_factor.
  destruct (Z.eqb_spec (Ticket.priority ticket) 1) as [Hp | Hp].
  - split; [simpl; tauto|]. split; [reflexivity|].
    intros _. rewrite Hp. split; reflexivity.
  - destruct (500 <? PyText.len (Ticket.description ticket)).
    + split; [simpl; tauto|]. split; [reflexivity|congruence].
    + destruct (200 <? PyText.len (Ticket.description ticket)).
      * split; [simpl; tauto|]. split; [reflexivity|congruence].
      * split; [simpl; tauto|]. split; [reflexivity|congruence].
Qed.

Lemma planned_complexity_is_scored_witness :
  In "high" ["low"; "medium"; "high"] /\
  (PyStr.is_ascii "- Login with email/password" = true ->
   get (factor_dict 100 0 30 0 0) "complexity"
   = Some (planned_complexity_factor 1 27)) /\
  (1 = 1 ->
     get (factor_dict 100 0 30 0 0) "complexity" = Some 30 /\
     get (factor_dict 100 0 30 0 0) "base_priority" = Some 100).
Proof.
  apply (planned_complexity_is_scored sample_ticket 0 "TASK-PROJ-123"
           "Add user authentication" None None 0
           {| task_id := "TASK-PROJ-123"; title := "Add user authentication";
              raw_priority := 1; score := 44.5%float;
              factors := factor_dict 100 0 30 0 0 |}).
  vm_compute. reflexivity.
Defined.

Module MarkdownFacts.

Import PyText.

Lemma contains_app_r needle a b :
  contains needle b = true -> contains needle (a ++ b)%string = true.
Proof.
  intros H. induction a as [|c a IH]; [exact H|].
  cbn [append contains]. rewrite IH. apply orb_true_r.
Qed.

Lemma contains_here needle s :
  startswith s needle = true -> contains needle s = true.
Proof. intros H. destruct s; simpl; rewrite H; reflexivity. Qed.

End MarkdownFacts.

(** X14: the planner leaves the technical approach and the files to modify
    empty, so the document of every ticket states "To be determined
    during implementation." under both headings. *)
Theorem plan_ticket_placeholders created ticket_data :
  let document := plan_ticket created ticket_data in
  PyText.contains
    (TaskPlanner.line "## Technical Approach"
     ++ TaskPlanner.line "To be determined during implementation.")%string
    document = true /\
  PyText.contains
    (TaskPlanner.line "## Files to Modify"
     ++ TaskPlanner.line "To be determined during implementation.")%string
    document = true.
Proof.
  cbv zeta. unfold plan_ticket, TaskPlanner.to_markdown.
  cbn [TaskPlanner.plan_from_ticket Task.technical_approach
       Task.files_to_modify map].
  split.
  - do 11 apply MarkdownFacts.contains_app_r.
    apply MarkdownFacts.contains_here. reflexivity.
  - do 14 apply MarkdownFacts.contains_app_r.
    apply MarkdownFacts.contains_here. reflexivity.
Qed.

(** * Properties of the pattern analyzer *)

Module DedupFacts.

Import PatternAnalyzer.

Lemma dedup_loop_acc ps :
  forall seen unique,
    dedup_loop ps seen unique = unique ++ dedup_loop ps seen [].
Proof.
  induction ps as [|p ps IH]; intros seen unique; cbn [dedup_loop].
  - now rewrite app_nil_r.
  - destruct (set_mem string_dec (Pattern.title p) seen); cbn [negb].
    + apply IH.
    + rewrite (IH _ (unique ++ [p])), (IH _ ([] ++ [p])).
      now rewrite <- app_assoc.
Qed.

Lemma dedup_loop_cons p ps seen :
  dedup_loop (p :: ps) seen [] =
  if set_mem string_dec (Pattern.title p) seen then dedup_loop ps seen []
  else p :: dedup_loop ps (set_add string_dec (Pattern.title p) seen) [].
Proof.
  cbn [dedup_loop].
  destruct (set_mem string_dec (Pattern.title p) seen); cbn [negb];
    [reflexivity|].
  now rewrite dedup_loop_acc.
Qed.

Lemma mem_false_iff (t : string) (seen : set string) :
  set_mem string_dec t seen = false <-> ~ In t seen.
Proof.
  split.
  - intros H Hin. apply (set_mem_correct2 string_dec) in Hin. congruence.
  - intros H. destruct (set_mem string_dec t seen) eqn:E; [|reflexivity].
    apply set_mem_correct1 in E. contradiction.
Qed.

Lemma dedup_loop_fresh ps :
  forall seen q,
    In q (dedup_loop ps seen []) -> ~ In (Pattern.title q) seen.
Proof.
  induction ps as [|p ps IH]; intros seen q; [intros []|].
  rewrite dedup_loop_cons.
  destruct (set_mem string_dec (Pattern.title p) seen) eqn:E.
  - apply IH.
  - intros [<- | Hq]; [now apply mem_false_iff|].
    intros Hs. apply (IH _ _ Hq). apply set_add_intro1. exact Hs.
Qed.

Lemma dedup_loop_NoDup ps :
  forall seen, NoDup (map Pattern.title (dedup_loop ps seen [])).
Proof.
  induction ps as [|p ps IH]; intros seen; [constructor|].
  rewrite dedup_loop_cons.
  destruct (set_mem string_dec (Pattern.title p) seen) eqn:E; [apply IH|].
  cbn [map]. constructor; [|apply IH].
  intros Hin. apply in_map_iff in Hin as (q & Hq & Hin).
  apply dedup_loop_fresh in Hin. apply Hin.
  apply set_add_intro2. now symmetry.
Qed.

Lemma dedup_loop_covers ps :
  forall seen p,
    In p ps ->
    In (Pattern.title p) seen \/
    exists q, In q (dedup_loop ps seen []) /\ Pattern.title q = Pattern.title p.
Proof.
  induction ps as [|p0 ps IH]; intros seen p; [intros []|].
  rewrite dedup_loop_cons. intros [-> | Hin].
  - destruct (set_mem string_dec (Pattern.title p) seen) eqn:E.
    + left. now apply set_mem_correct1 in E.
    + right. exists p. split; [now left|reflexivity].
  - destruct (set_mem string_dec (Pattern.title p0) seen) eqn:E.
    + now apply IH.
    + destruct (IH (set_add string_dec (Pattern.title p0) seen) p Hin)
        as [Hs | (q & Hq & Ht)].
      * apply set_add_elim in Hs as [Hs | Hs].
        -- right. exists p0. split; [now left|now symmetry].
        -- now left.
      * right. exists q. split; [now right|exact Ht].
Qed.

Lemma dedup_loop_first ps :
  forall seen q,
    In q (dedup_loop ps seen []) ->
    exists l1 l2,
      ps = l1 ++ q :: l2 /\
      forall x, In x l1 -> Pattern.title x <> Pattern.title q.
Proof.
  induction ps as [|p ps IH]; intros seen q; [intros []|].
  rewrite dedup_loop_cons.
  destruct (set_mem string_dec (Pattern.title p) seen) eqn:E.
  - intros Hq. pose proof (dedup_loop_fresh _ _ _ Hq) as Hf.
    destruct (IH _ _ Hq) as (l1 & l2 & -> & H).
    exists (p :: l1), l2. split; [reflexivity|].
    intros x [<- | Hx]; [|now apply H].
    intros Ht. apply Hf. rewrite <- Ht. now apply set_mem_correct1 in E.
  - intros [<- | Hq].
    + exists [], ps. split; [reflexivity|intros x []].
    + pose proof (dedup_loop_fresh _ _ _ Hq) as Hf.
      destruct (IH _ _ Hq) as (l1 & l2 & -> & H).
      exists (p :: l1), l2. split; [reflexivity|].
      intros x [<- | Hx]; [|now apply H].
      intros Ht. apply Hf. apply set_add_intro2. now symmetry.
Qed.

Lemma dedup_loop_id ps :
  forall seen,
    NoDup (map Pattern.title ps) ->
    (forall p, In p ps -> ~ In (Pattern.title p) seen) ->
    dedup_loop ps seen [] = ps.
Proof.
  induction ps as [|p ps IH]; intros seen Hnd Hs; [reflexivity|].
  rewrite dedup_loop_cons.
  rewrite (proj2 (mem_false_iff _ _) (Hs p (or_introl eq_refl))).
  inversion Hnd as [|? ? Hp Hps]; subst. f_equal. apply IH; [exact Hps|].
  intros q Hq Hin. apply set_add_elim in Hin as [Hin | Hin].
  - apply Hp. rewrite <- Hin. now apply in_map.
  - exact (Hs q (or_intror Hq) Hin).
Qed.

End DedupFacts.

(** X15: [_deduplicate_patterns] returns patterns with pairwise different
    titles; every title of the input is the title of a returned pattern,
    and a returned pattern is the first of the input with its title;
    patterns whose titles already differ are returned as they are, so
    deduplicating twice is deduplicating once. *)
Theorem deduplicate_patterns_spec (ps : list Pattern.Pattern) :
  let unique := PatternAnalyzer._deduplicate_patterns ps in
  NoDup (map Pattern.title unique) /\
  (forall p, In p ps ->
     exists q, In q unique /\ Pattern.title q = Pattern.title p) /\
  (forall q, In q unique ->
     exists l1 l2,
       ps = l1 ++ q :: l2 /\
       forall x, In x l1 -> Pattern.title x <> Pattern.title q) /\
  (NoDup (map Pattern.title ps) -> unique = ps) /\
  PatternAnalyzer._deduplicate_patterns unique = unique.
Proof.
  cbv zeta. unfold PatternAnalyzer._deduplicate_patterns.
  pose proof (DedupFacts.dedup_loop_NoDup ps (empty_set string)) as Hnd.
  split; [exact Hnd|]. split; [|split; [|split]].
  - intros p Hp.
    destruct (DedupFacts.dedup_loop_covers ps (empty_set string) p Hp)
      as [[] | H]; exact H.
  - apply DedupFacts.dedup_loop_first.
  - intros H. apply DedupFacts.dedup_loop_id; [exact H|intros p _ []].
  - apply DedupFacts.dedup_loop_id; [exact Hnd|intros p _ []].
Qed.

Lemma deduplicate_patterns_spec_witness :
  PatternAnalyzer._deduplicate_patterns
    [sample_pattern "Use defer" "first"; sample_pattern "Use slog" "second"]
  = [sample_pattern "Use defer" "first"; sample_pattern "Use slog" "second"].
Proof.
  apply (proj1 (proj2 (proj2 (proj2 (deduplicate_patterns_spec
           [sample_pattern "Use defer" "first";
            sample_pattern "Use slog" "second"]))))).
  repeat constructor; simpl; intuition discriminate.
Defined.

Module ExampleFacts.

Import PyText PatternAnalyzer.

Lemma lower_app a b :
  PyStr.lower (a ++ b)%string = (PyStr.lower a ++ PyStr.lower b)%string.
Proof. induction a as [|c a IH]; simpl; [reflexivity|now rewrite IH]. Qed.

Lemma startswith_app n :
  forall a b, startswith a n = true -> startswith (a ++ b)%string n = true.
Proof.
  induction n as [|c n IH]; intros a b H; [reflexivity|].
  destruct a as [|c' a]; [discriminate H|].
  cbn [append startswith] in *.
  apply andb_true_iff in H as [Hc Hn]. now rewrite Hc, (IH a b Hn).
Qed.

Lemma contains_app_l n a b :
  contains n a = true -> contains n (a ++ b)%string = true.
Proof.
  induction a as [|c a IH]; cbn [contains append].
  - rewrite orb_false_r. intros H. destruct n; [|discriminate H].
    destruct b; reflexivity.
  - intros H. apply orb_true_iff in H as [H | H].
    + change (String c (a ++ b)) with (String c a ++ b)%string.
      now rewrite (startswith_app n (String c a) b H).
    + rewrite (IH H). apply orb_true_r.
Qed.

Lemma join_In sep x l :
  In x l -> exists a b, join sep l = (a ++ x ++ b)%string.
Proof.
  induction l as [|y l IH]; [intros []|].
  intros [-> | Hin].
  - destruct l as [|z l].
    + exists "", "". simpl. now rewrite TextFacts.append_nil_r.
    + exists "", (sep ++ join sep (z :: l))%string. reflexivity.
  - destruct (IH Hin) as (a & b & E). destruct l as [|z l]; [destruct Hin|].
    exists (y ++ sep ++ a)%string, b.
    change (join sep (y :: z :: l)) with (y ++ sep ++ join sep (z :: l))%string.
    rewrite E. now rewrite <- !TextFacts.append_assoc.
Qed.

Lemma occurs_join signature sep x l :
  In x l -> occurs signature x = true ->
  occurs signature (join sep l) = true.
Proof.
  intros Hin Hx. destruct (join_In sep x l Hin) as (a & b & ->).
  unfold occurs in *. rewrite !lower_app.
  apply MarkdownFacts.contains_app_r. now apply contains_app_l.
Qed.

Lemma In_slice {A : Type} (l : list A) (k : nat) (x : A) (start stop : Z) :
  nth_error l k = Some x ->
  0 <= start <= Z.of_nat k -> Z.of_nat k < stop ->
  In x (PyList.slice l start stop).
Proof.
  intros Hx Hs Ht. unfold PyList.slice.
  apply (nth_error_In _ (k - Z.to_nat start)).
  rewrite nth_error_firstn.
  destruct (Nat.ltb_spec (k - Z.to_nat start) (Z.to_nat (stop - start)));
    [|lia].
  rewrite nth_error_skipn. rewrite <- Hx. f_equal. lia.
Qed.

Lemma skipn_cons_nth {A : Type} (l : list A) (k : nat) (x : A) rest :
  skipn k l = x :: rest ->
  nth_error l k = Some x /\ skipn (S k) l = rest.
Proof.
  revert l. induction k as [|k IH]; intros [|y l] H; try discriminate H.
  - injection H as -> ->. now split.
  - now apply IH.
Qed.

Section Loop.
Variables (lines : list string) (signature : string).

Lemma examples_loop_good :
  forall remaining k examples,
    skipn k lines = remaining ->
    (List.length examples < 3)%nat ->
    Forall (good_example signature) examples ->
    (List.length
       (examples_loop lines signature (Z.of_nat k) remaining examples) <= 3)%nat
    /\ Forall (good_example signature)
         (examples_loop lines signature (Z.of_nat k) remaining examples).
Proof.
  induction remaining as [|line rest IH]; intros k examples Hk Hlen Hgood.
  - cbn [examples_loop]. split; [lia|exact Hgood].
  - cbn [examples_loop].
    destruct (skipn_cons_nth lines k line rest Hk) as [Hnth Hrest].
    replace (Z.of_nat k + 1) with (Z.of_nat (S k)) by lia.
    destruct (contains (PyStr.lower signature) (PyStr.lower line)) eqn:Hocc;
      [|now apply IH].
    set (snippet := join (String nl "")
                      (PyList.slice lines (Z.max 0 (Z.of_nat k - 1))
                         (Z.min (PyList.len lines) (Z.of_nat k + 2)))).
    assert (Hsn : occurs signature snippet = true).
    { apply (occurs_join signature _ line); [|exact Hocc].
      apply (In_slice lines k); [exact Hnth|lia|].
      assert (k < List.length lines)%nat
        by (apply nth_error_Some; congruence).
      unfold PyList.len. lia. }
    destruct (Z.leb_spec (len snippet) 200) as [Hshort | Hlong].
    + destruct (Z.leb_spec 3 (PyList.len (examples ++ [snippet]))) as [H3 | H3].
      * split.
        -- rewrite length_app. simpl. lia.
        -- apply Forall_app. split; [exact Hgood|].
           constructor; [now split|constructor].
      * apply IH; [exact Hrest| |].
        -- unfold PyList.len in H3. lia.
        -- apply Forall_app. split; [exact Hgood|].
           constructor; [now split|constructor].
    + destruct (Z.leb_spec 3 (PyList.len examples)) as [H3 | H3].
      * split; [lia|exact Hgood].
      * now apply IH.
Qed.

Lemma examples_loop_none :
  forall remaining i examples,
    (forall line, In line remaining -> occurs signature line = false) ->
    examples_loop lines signature i remaining examples = examples.
Proof.
  induction remaining as [|line rest IH]; intros i examples H; [reflexivity|].
  cbn [examples_loop]. unfold occurs in H.
  rewrite (H line (or_introl eq_refl)). apply IH.
  intros l Hl. apply H. now right.
Qed.

End Loop.

End ExampleFacts.

(** X16: on a text and a signature of ASCII characters, [_extract_examples]
    returns at most three examples, each of at most 200 characters and
    each with the signature in it, whatever the case of its letters; it
    returns none when no line of the text has the signature. *)
Theorem extract_examples_spec (text signature : string) :
  PyStr.is_ascii text = true -> PyStr.is_ascii signature = true ->
  let examples := PatternAnalyzer._extract_examples text signature in
  (List.length examples <= 3)%nat /\
  Forall (good_example signature) examples /\
  ((forall line, In line (PyText.split PyText.nl text) ->
                 occurs signature line = false) ->
   examples = []).
Proof.
  intros _ _. cbv zeta. unfold PatternAnalyzer._extract_examples.
  destruct (ExampleFacts.examples_loop_good (PyText.split PyText.nl text)
              signature (PyText.split PyText.nl text) 0 [])
    as [Hlen Hgood]; [reflexivity|simpl; lia|constructor|].
  split; [exact Hlen|]. split; [exact Hgood|].
  apply ExampleFacts.examples_loop_none.
Qed.

Lemma extract_examples_spec_witness :
  PatternAnalyzer._extract_examples "go build ./..." "defer " = [].
Proof.
  apply (proj2 (proj2 (extract_examples_spec "go build ./..." "defer "
                         eq_refl eq_refl))).
  intros line [<- | []]. reflexivity.
Defined.

Module AnalyzeFacts.

Import PyText PatternAnalyzer.

Lemma code_loop_rows defs text :
  forall acc,
    code_loop defs text acc
    = acc ++ map (code_pattern_of text)
               (filter (fun d => occurs (PatternDef.signature d) text) defs).
Proof.
  induction defs as [|d defs IH]; intros acc; cbn [code_loop filter].
  - now rewrite app_nil_r.
  - unfold occurs at 1.
    destruct (contains (PyStr.lower (PatternDef.signature d))
                       (PyStr.lower text)).
    + rewrite IH. cbn [map]. now rewrite <- app_assoc.
    + apply IH.
Qed.

Lemma error_loop_rows defs error :
  forall acc,
    error_loop defs error acc
    = acc ++ map (anti_pattern_of error)
               (filter (fun d => occurs (PatternDef.signature d) error) defs).
Proof.
  induction defs as [|d defs IH]; intros acc; cbn [error_loop filter].
  - now rewrite app_nil_r.
  - unfold occurs at 1.
    destruct (contains (PyStr.lower (PatternDef.signature d))
                       (PyStr.lower error)).
    + rewrite IH. cbn [map]. now rewrite <- app_assoc.
    + apply IH.
Qed.

Lemma code_pattern_titles text defs :
  map Pattern.title (map (code_pattern_of text) defs)
  = map PatternDef.title defs.
Proof. rewrite map_map. reflexivity. Qed.

Lemma anti_pattern_titles error defs :
  map Pattern.title (map (anti_pattern_of error) defs)
  = map PatternDef.title defs.
Proof. rewrite map_map. reflexivity. Qed.

Lemma extract_examples_report text signature :
  (List.length (_extract_examples text signature) <= 3)%nat /\
  Forall (fun e => len e <= 200) (_extract_examples text signature).
Proof.
  unfold _extract_examples.
  destruct (ExampleFacts.examples_loop_good (split nl text) signature
              (split nl text) 0 [])
    as [Hlen Hgood]; [reflexivity|simpl; lia|constructor|].
  split; [exact Hlen|].
  eapply Forall_impl; [|exact Hgood]. intros e [He _]. exact He.
Qed.

Lemma code_loop_reports defs text :
  forall acc, Forall code_report acc ->
              Forall code_report (code_loop defs text acc).
Proof.
  induction defs as [|d defs IH]; intros acc Hacc; cbn [code_loop];
    [exact Hacc|].
  destruct (contains _ _); [|now apply IH].
  apply IH. apply Forall_app. split; [exact Hacc|].
  constructor; [|constructor].
  split; [reflexivity|]. apply extract_examples_report.
Qed.

Lemma error_loop_reports defs error :
  forall acc, Forall (error_report error) acc ->
              Forall (error_report error) (error_loop defs error acc).
Proof.
  induction defs as [|d defs IH]; intros acc Hacc; cbn [error_loop];
    [exact Hacc|].
  destruct (contains _ _); [|now apply IH].
  apply IH. apply Forall_app. split; [exact Hacc|].
  constructor; [|constructor]. split; reflexivity.
Qed.

Lemma NoDup_map_filter {A B : Type} (f : A -> B) (g : A -> bool) l :
  NoDup (map f l) -> NoDup (map f (filter g l)).
Proof.
  induction l as [|a l IH]; [constructor|].
  cbn [map filter]. intros H. inversion H as [|? ? Ha Hl]; subst.
  destruct (g a); [|now apply IH].
  cbn [map]. constructor; [|now apply IH].
  intros Hin. apply Ha. apply in_map_iff in Hin as (x & <- & Hx).
  apply in_map. apply filter_In in Hx. tauto.
Qed.

Lemma CODE_PATTERNS_titles : NoDup (map PatternDef.title CODE_PATTERNS).
Proof. repeat constructor; simpl; intuition discriminate. Qed.

Lemma ERROR_PATTERNS_titles : NoDup (map PatternDef.title ERROR_PATTERNS).
Proof. repeat constructor; simpl; intuition discriminate. Qed.

Lemma filter_length_le {A : Type} (g : A -> bool) l :
  (List.length (filter g l) <= List.length l)%nat.
Proof.
  induction l as [|a l IH]; simpl; [lia|]. destruct (g a); simpl; lia.
Qed.

End AnalyzeFacts.

(** X17: on a request of ASCII text, [analyze] reports exactly the rows of
    its two tables whose signature occurs, whatever the case of the
    letters, in the output and the diff joined by a newline (code
    patterns) or in the error (anti-patterns), in the order of the tables
    and each once: no report is lost to the deduplication.  The report of
    a row carries its type, title, description and context; a code pattern
    has the examples that [_extract_examples] finds in the joined text, at
    most three of at most 200 characters each, and the confidence 0.7; an
    anti-pattern has the first 200 characters of the error as its only
    example and the confidence 0.8.  A missing or empty error gives no
    anti-pattern. *)
Theorem analyze_reports_table_rows (request : RequestDict) :
  let output := get_or (r_output request) "" in
  let diff_content := get_or (r_diff_content request) "" in
  let text := (output ++ String PyText.nl diff_content)%string in
  let error := get_or (r_error request) "" in
  let result := PatternAnalyzer.analyze request in
  PyStr.is_ascii output = true -> PyStr.is_ascii diff_content = true ->
  PyStr.is_ascii error = true ->
  patterns result
  = map (code_pattern_of text)
      (filter (fun d => occurs (PatternDef.signature d) text)
              PatternAnalyzer.CODE_PATTERNS) /\
  anti_patterns result
  = map (anti_pattern_of error)
      (filter (fun d => occurs (PatternDef.signature d) error)
              PatternAnalyzer.ERROR_PATTERNS) /\
  (error = "" -> anti_patterns result = []) /\
  (List.length (patterns result) <= 5)%nat /\
  (List.length (anti_patterns result) <= 4)%nat /\
  Forall code_report (patterns result) /\
  Forall (error_report error) (anti_patterns result).
Proof.
  cbv zeta. intros _ _ _.
  unfold PatternAnalyzer.analyze. cbn [patterns anti_patterns].
  set (text := (get_or (r_output request) ""
                ++ String PyText.nl (get_or (r_diff_content request) ""))%string).
  set (error := get_or (r_error request) "").
  set (found := PatternAnalyzer.code_loop PatternAnalyzer.CODE_PATTERNS text []).
  set (failed := if PyText.truthy error
                 then PatternAnalyzer.error_loop
                        PatternAnalyzer.ERROR_PATTERNS error []
                 else []).
  assert (Hf : found
               = map (code_pattern_of text)
                   (filter (fun d => occurs (PatternDef.signature d) text)
                           PatternAnalyzer.CODE_PATTERNS)).
  { unfold found. now rewrite AnalyzeFacts.code_loop_rows. }
  assert (He : failed
               = map (anti_pattern_of error)
                   (filter (fun d => occurs (PatternDef.signature d) error)
                           PatternAnalyzer.ERROR_PATTERNS)).
  { unfold failed. destruct error as [|c error'] eqn:E.
    - reflexivity.
    - cbn [PyText.truthy String.eqb negb].
      now rewrite AnalyzeFacts.error_loop_rows. }
  assert (Hfd : PatternAnalyzer._deduplicate_patterns found = found).
  { apply DedupFacts.dedup_loop_id; [|intros p _ []].
    rewrite Hf, AnalyzeFacts.code_pattern_titles.
    apply AnalyzeFacts.NoDup_map_filter.
    exact AnalyzeFacts.CODE_PATTERNS_titles. }
  assert (Hed : PatternAnalyzer._deduplicate_patterns failed = failed).
  { apply DedupFacts.dedup_loop_id; [|intros p _ []].
    rewrite He, AnalyzeFacts.anti_pattern_titles.
    apply AnalyzeFacts.NoDup_map_filter.
    exact AnalyzeFacts.ERROR_PATTERNS_titles. }
  rewrite Hfd, Hed.
  split; [exact Hf|]. split; [exact He|]. split; [|split; [|split; [|split]]].
  - intros E. unfold failed. now rewrite E.
  - rewrite Hf, length_map.
    apply (AnalyzeFacts.filter_length_le _ PatternAnalyzer.CODE_PATTERNS).
  - rewrite He, length_map.
    apply (AnalyzeFacts.filter_length_le _ PatternAnalyzer.ERROR_PATTERNS).
  - unfold found. apply AnalyzeFacts.code_loop_reports. constructor.
  - unfold failed. destruct (PyText.truthy error); [|constructor].
    apply AnalyzeFacts.error_loop_reports. constructor.
Qed.

Lemma analyze_reports_table_rows_witness :
  map Pattern.title (patterns (PatternAnalyzer.analyze sample_request))
  = ["Use context.Context for cancellation"; "Use defer for cleanup"] /\
  map Pattern.title (anti_patterns (PatternAnalyzer.analyze sample_request))
  = ["Check for nil before dereference"].
Proof.
  destruct (analyze_reports_table_rows sample_request eq_refl eq_refl eq_refl)
    as (Hp & Ha & _).
  rewrite Hp, Ha. split; vm_compute; reflexivity.
Defined.

(** * Properties of the daily brief *)

(** The date of a day number is the date with that day number, checked
    on the first years, around 1900, 2000, 2024 and 2100, and on the last
    years of the calendar. *)
Example ymd_inverts_day_number :
  forallb (fun first =>
    forallb (fun k =>
               let n := first + Z.of_nat k in
               let '(y, m, d) := PyDate.ymd n in
               match IsoFormat.day_number y m d with
               | Some n' => n' =? n
               | None => false
               end)
            (seq 0 1200))
    [0; 693200; 729700; 738500; 766200; 3650859]
  = true.
Proof. vm_compute. reflexivity. Qed.

Module BriefFacts.

Import BriefGenerator.

Lemma status_cases (s : string) :
  s = "completed" \/ s = "running" \/ s = "failed" \/ s = "pending"
  \/ known_status s = false.
Proof.
  unfold known_status.
  destruct (String.eqb_spec s "completed"); [tauto|].
  destruct (String.eqb_spec s "running"); [tauto|].
  destruct (String.eqb_spec s "failed"); [tauto|].
  destruct (String.eqb_spec s "pending"); tauto.
Qed.

Lemma filed_permutation (tasks : list TaskSummary.TaskSummary) :
  Permutation
    (filter (fun t => String.eqb (TaskSummary.status t) "completed") tasks
     ++ filter (fun t => String.eqb (TaskSummary.status t) "running") tasks
     ++ filter (fun t => String.eqb (TaskSummary.status t) "failed") tasks
     ++ filter (fun t => String.eqb (TaskSummary.status t) "pending") tasks
     ++ filter (fun t => negb (known_status (TaskSummary.status t))) tasks)
    tasks.
Proof.
  induction tasks as [|t tasks IH]; [reflexivity|].
  cbn [filter].
  destruct (status_cases (TaskSummary.status t))
    as [E | [E | [E | [E | E]]]]; rewrite E.
  - cbn. now apply perm_skip.
  - cbn. symmetry. apply Permutation_cons_app. now symmetry.
  - cbn. symmetry. rewrite app_assoc. apply Permutation_cons_app.
    rewrite <- app_assoc. now symmetry.
  - cbn. symmetry. rewrite 2 app_assoc. apply Permutation_cons_app.
    rewrite <- 2 app_assoc. now symmetry.
  - unfold known_status in E.
    apply orb_false_iff in E as [E E4]. apply orb_false_iff in E as [E E3].
    apply orb_false_iff in E as [E1 E2].
    rewrite E1, E2, E3, E4. cbn [negb].
    symmetry. rewrite 3 app_assoc. apply Permutation_cons_app.
    rewrite <- 3 app_assoc. now symmetry.
Qed.

Lemma truediv_same (n : Z) : 0 < n -> PyNum.truediv n n = 1%float.
Proof.
  intros Hn. unfold PyNum.truediv, PyFloat.ratio_to_float.
  destruct (Z.eqb_spec n 0) as [E | _]; [lia|].
  rewrite Z.sub_diag. cbn [Z.sub Z.opp Z.add Z.leb Z.compare].
  change (0 <=? 55) with true. cbv iota.
  rewrite (Z.mul_comm n), Z.div_mul, Z_mod_mult by lia.
  vm_compute. reflexivity.
Qed.

Lemma some_firstn {A : Type} (n : nat) (l : list A) :
  some (firstn (S n) l) = some l.
Proof. destruct l; reflexivity. Qed.

End BriefFacts.

(** X18: [generate] files every task under the heading of its status, keeping
    the order: the completed, in-progress, failed and upcoming lists are
    the tasks of the status "completed", "running", "failed" and
    "pending", each in the order of the input, and a task of any other
    status is in none of them.  So the four lists and the tasks filed
    nowhere are together a permutation of the tasks: the total, which
    counts every task, is the sum of the four counts and of the number of
    tasks filed nowhere, and each count is the length of its list. *)
Theorem generate_files_by_status now tasks date :
  let brief := BriefGenerator.generate now tasks date in
  let others :=
    filter (fun t => negb (known_status (TaskSummary.status t))) tasks in
  completed brief = with_status "completed" tasks /\
  in_progress brief = with_status "running" tasks /\
  failed brief = with_status "failed" tasks /\
  upcoming brief = with_status "pending" tasks /\
  (forall s t, In t (with_status s tasks)
               <-> In t tasks /\ TaskSummary.status t = s) /\
  (forall t, In t (completed brief ++ in_progress brief ++ failed brief
                   ++ upcoming brief) ->
             known_status (TaskSummary.status t) = true) /\
  Permutation
    (completed brief ++ in_progress brief ++ failed brief ++ upcoming brief
     ++ others) tasks /\
  total (stats brief) = PyList.len tasks /\
  total (stats brief)
  = completed_count (stats brief) + in_progress_count (stats brief)
    + failed_count (stats brief) + upcoming_count (stats brief)
    + PyList.len others /\
  completed_count (stats brief) = PyList.len (completed brief) /\
  in_progress_count (stats brief) = PyList.len (in_progress brief) /\
  failed_count (stats brief) = PyList.len (failed brief) /\
  upcoming_count (stats brief) = PyList.len (upcoming brief).
Proof.
  cbv zeta. unfold BriefGenerator.generate.
  cbn [completed in_progress failed upcoming stats total completed_count
       in_progress_count failed_count upcoming_count].
  pose proof (BriefFacts.filed_permutation tasks) as P.
  do 4 (split; [reflexivity|]).
  split.
  { intros s t. unfold with_status. rewrite filter_In, String.eqb_eq. tauto. }
  split.
  { intros t Ht. unfold known_status.
    rewrite !in_app_iff, !filter_In, !String.eqb_eq in Ht.
    destruct Ht as [[_ E] | [[_ E] | [[_ E] | [_ E]]]]; rewrite E; reflexivity. }
  split; [exact P|]. split; [reflexivity|]. split; [|repeat split].
  apply Permutation_length in P. rewrite !length_app in P.
  unfold PyList.len. lia.
Qed.

(** X19: the success rate is the integer 0 when no task is completed or
    failed, the float 100.0 when some are completed and none failed, and
    the float 0.0 when some failed and none is completed; the briefs
    print it as "0", "100" and "0". *)
Theorem success_rate_edges now tasks date :
  let brief := BriefGenerator.generate now tasks date in
  let rate := success_rate (stats brief) in
  (completed brief = [] -> failed brief = [] ->
     rate = PyNum.Int 0 /\ PyNum.format_0f rate = "0") /\
  (completed brief <> [] -> failed brief = [] ->
     rate = PyNum.Float 100 /\ PyNum.format_0f rate = "100") /\
  (completed brief = [] -> failed brief <> [] ->
     rate = PyNum.Float 0 /\ PyNum.format_0f rate = "0").
Proof.
  cbv zeta. unfold BriefGenerator.generate.
  cbn [completed failed stats success_rate].
  set (c := filter (fun t => String.eqb (TaskSummary.status t) "completed") tasks).
  set (f := filter (fun t => String.eqb (TaskSummary.status t) "failed") tasks).
  split; [|split].
  - intros -> ->. split; reflexivity.
  - intros Hc ->. change (PyList.len []) with 0. rewrite Z.add_0_r.
    assert (Hpos : 0 < PyList.len c).
    { destruct c; [congruence|]. unfold PyList.len. simpl List.length. lia. }
    destruct (Z.ltb_spec 0 (PyList.len c)); [|lia].
    rewrite (BriefFacts.truediv_same _ Hpos). split; vm_compute; reflexivity.
  - intros -> Hf. change (PyList.len []) with 0. rewrite Z.add_0_l.
    assert (Hpos : 0 < PyList.len f).
    { destruct f; [congruence|]. unfold PyList.len. simpl List.length. lia. }
    destruct (Z.ltb_spec 0 (PyList.len f)); [|lia].
    split; vm_compute; reflexivity.
Qed.

Lemma success_rate_edges_witness :
  success_rate
    (stats (BriefGenerator.generate (naive sample_now)
              [sample_summary "TASK-1" "completed";
               sample_summary "TASK-2" "pending"] None))
  = PyNum.Float 100 /\
  PyNum.format_0f
    (success_rate
       (stats (BriefGenerator.generate (naive sample_now)
                 [sample_summary "TASK-1" "completed";
                  sample_summary "TASK-2" "pending"] None)))
  = "100".
Proof.
  apply (proj1 (proj2 (success_rate_edges (naive sample_now)
           [sample_summary "TASK-1" "completed";
            sample_summary "TASK-2" "pending"] None))).
  - discriminate.
  - reflexivity.
Defined.

(** X20: the Slack message shows at most five tasks in progress, three failed
    tasks and three upcoming tasks: it is the message of the brief whose
    lists are cut to these lengths: apart from the counts of the summary,
    nothing in it tells of the tasks left out. *)
Theorem slack_message_cuts_lists (brief : DailyBrief) :
  BriefGenerator.to_slack_message brief
  = BriefGenerator.to_slack_message
      {| date := date brief;
         completed := completed brief;
         in_progress := firstn 5 (in_progress brief);
         failed := firstn 3 (failed brief);
         upcoming := firstn 3 (upcoming brief);
         stats := stats brief |}.
Proof.
  unfold BriefGenerator.to_slack_message.
  cbn [date completed in_progress failed upcoming stats].
  rewrite !firstn_firstn. cbn [Nat.min].
  now rewrite !BriefFacts.some_firstn.
Qed.

(** X21: [generate_brief] writes the Markdown brief for the format "markdown"
    and the Slack message for every other format; a dictionary without a
    status is filed as pending. *)
Theorem generate_brief_formats now tasks_data format :
  (format <> "markdown" ->
   generate_brief now tasks_data format
   = generate_brief now tasks_data "slack") /\
  (forall t, In t tasks_data -> s_status t = None ->
     exists task,
       In task (upcoming (BriefGenerator.generate now
                  (map (fun t =>
                          {| TaskSummary.id := get_or (s_id t) "";
                             TaskSummary.title := get_or (s_title t) "";
                             TaskSummary.status := get_or (s_status t) "pending";
                             TaskSummary.pr_url := s_pr_url t;
                             TaskSummary.completed_at := None;
                             TaskSummary.error := s_error t |})
                       tasks_data) None)) /\
       TaskSummary.id task = get_or (s_id t) "").
Proof.
  split.
  - intros H. unfold generate_brief.
    destruct (String.eqb_spec format "markdown"); [contradiction|reflexivity].
  - intros t Hin Hs. eexists. split.
    + unfold BriefGenerator.generate. cbn [upcoming].
      apply filter_In. split.
      * apply in_map_iff. exists t. split; [reflexivity|exact Hin].
      * cbn [TaskSummary.status]. now rewrite Hs.
    + reflexivity.
Qed.

Lemma generate_brief_formats_witness :
  generate_brief (naive sample_now)
    [sample_dict "TASK-1" "Add login" "completed" None None] "Markdown"
  = generate_brief (naive sample_now)
      [sample_dict "TASK-1" "Add login" "completed" None None] "slack".
Proof.
  apply (proj1 (generate_brief_formats (naive sample_now)
           [sample_dict "TASK-1" "Add login" "completed" None None]
           "Markdown")).
  discriminate.
Defined.
